(** * GrustnoPy: the Grustnogram client SDK

    A shallow embedding of [grustnopy/core.py], [grustnopy/types.py] and
    [grustnopy/errors.py].

    - Python values are the JSON-shaped values the client handles: [None],
      booleans, integers, strings, lists and string-keyed dictionaries.
      A string is a sequence of code points below 256 (one [ascii] each);
      numbers with a fractional part are outside the model.
    - Every [async def] is a function returning a [coroutine]; nothing of its
      body runs until the coroutine is handed to [await].
    - The HTTP library is an external collaborator: a call of
      [requests.post], [requests.get] or [requests.delete] is recorded in the
      trace [sent] with the arguments the source passes, and answered by the
      network [dispatch], which the development is parametric in. *)

From Stdlib Require Import List String Ascii ZArith Bool Lia DecimalString.
From Stdlib.Strings Require Import Byte.
From Stdlib Require DecimalPos DecimalZ.
Import ListNotations.
Local Open Scope list_scope.
Local Open Scope string_scope.
Set Warnings "-register-all".

(** ** Python values *)

Inductive value : Type :=
| VNone
| VBool (b : bool)
| VInt (n : Z)
| VStr (s : string)
| VList (items : list value)
| VDict (entries : list (string * value)).

(** A dictionary keeps its insertion order; the first binding of a key is the
    one looked up. *)
Fixpoint lookup (key : string) (entries : list (string * value)) : option value :=
  match entries with
  | [] => None
  | (k, v) :: rest => if String.eqb key k then Some v else lookup key rest
  end.

(** Induction over values that reaches the items of a list and the values
    of a dictionary. *)
Section ValueInduction.

Variable P : value -> Prop.
Hypothesis HNone : P VNone.
Hypothesis HBool : forall b, P (VBool b).
Hypothesis HInt : forall n, P (VInt n).
Hypothesis HStr : forall s, P (VStr s).
Hypothesis HList : forall items, Forall P items -> P (VList items).
Hypothesis HDict :
  forall entries, Forall (fun kv => P (snd kv)) entries -> P (VDict entries).

Fixpoint value_nested_ind (v : value) : P v :=
  match v with
  | VNone => HNone
  | VBool b => HBool b
  | VInt n => HInt n
  | VStr s => HStr s
  | VList items =>
      HList items
        ((fix all (l : list value) : Forall P l :=
            match l with
            | [] => Forall_nil P
            | x :: l' => Forall_cons x (value_nested_ind x) (all l')
            end) items)
  | VDict entries =>
      HDict entries
        ((fix all (l : list (string * value)) : Forall (fun kv => P (snd kv)) l :=
            match l with
            | [] => Forall_nil _
            | kv :: l' => Forall_cons kv (value_nested_ind (snd kv)) (all l')
            end) entries)
  end.

End ValueInduction.

(** ** Characters and text *)

Definition dquote : ascii := "034"%char.
Definition squote : ascii := "039"%char.
Definition backslash : ascii := "092"%char.
Definition newline : ascii := "010"%char.

Definition char (c : ascii) : string := String c EmptyString.

Definition hexdigit (n : nat) : ascii :=
  nth n (list_ascii_of_string "0123456789abcdef") "0"%char.

(** Two lower-case hexadecimal digits of a code point below 256. *)
Definition hex2 (n : nat) : string :=
  String (hexdigit (n / 16)) (String (hexdigit (n mod 16)) EmptyString).

Fixpoint concat_map (f : ascii -> string) (s : string) : string :=
  match s with
  | EmptyString => EmptyString
  | String c rest => f c ++ concat_map f rest
  end.

Fixpoint repeat_string (s : string) (n : nat) : string :=
  match n with
  | O => EmptyString
  | S m => s ++ repeat_string s m
  end.

Fixpoint mem_char (c : ascii) (s : string) : bool :=
  match s with
  | EmptyString => false
  | String d rest => Ascii.eqb c d || mem_char c rest
  end.

(** [p in s] on two strings: [p] occurs in [s] as a contiguous run. *)
Fixpoint is_substring (p s : string) : bool :=
  String.prefix p s ||
  match s with
  | EmptyString => false
  | String _ rest => is_substring p rest
  end.

(** [str(n)] of an integer: decimal digits, a minus sign when negative. *)
Definition int_repr (n : Z) : string := NilZero.string_of_int (Z.to_int n).

(** ** [json.dumps]

    The default encoder ([ensure_ascii=True]): every character outside
    [' '..'~'], the double quote and the backslash are escaped. *)
Definition escape_ascii (c : ascii) : string :=
  let n := nat_of_ascii c in
  if Ascii.eqb c backslash then String backslash (char backslash)
  else if Ascii.eqb c dquote then String backslash (char dquote)
  else if Nat.eqb n 8 then "\b"
  else if Nat.eqb n 12 then "\f"
  else if Nat.eqb n 10 then "\n"
  else if Nat.eqb n 13 then "\r"
  else if Nat.eqb n 9 then "\t"
  else if Nat.ltb n 32 || Nat.ltb 126 n then "\u00" ++ hex2 n
  else char c.

Definition encode_basestring_ascii (s : string) : string :=
  char dquote ++ concat_map escape_ascii s ++ char dquote.

(** With [indent=k] every item starts on a line of its own, indented by [k]
    spaces per nesting level, and the item separator is a bare comma;
    without it everything is on one line and the separator is [", "]. *)
Definition newline_indent (indent : option nat) (level : nat) : string :=
  match indent with
  | Some k => String newline (repeat_string " " (k * level))
  | None => EmptyString
  end.

Definition item_separator (indent : option nat) : string :=
  match indent with
  | Some _ => ","
  | None => ", "
  end.

Definition key_separator : string := ": ".

Fixpoint iterencode (indent : option nat) (level : nat) (o : value) : string :=
  match o with
  | VNone => "null"
  | VBool true => "true"
  | VBool false => "false"
  | VInt n => int_repr n
  | VStr s => encode_basestring_ascii s
  | VList [] => "[]"
  | VList (first :: others) =>
      "[" ++ newline_indent indent (S level)
          ++ iterencode indent (S level) first
          ++ (fix rest (l : list value) : string :=
                match l with
                | [] => EmptyString
                | x :: l' =>
                    item_separator indent ++ newline_indent indent (S level)
                      ++ iterencode indent (S level) x ++ rest l'
                end) others
          ++ newline_indent indent level ++ "]"
  | VDict [] => "{}"
  | VDict ((k0, v0) :: others) =>
      "{" ++ newline_indent indent (S level)
          ++ encode_basestring_ascii k0 ++ key_separator
          ++ iterencode indent (S level) v0
          ++ (fix rest (l : list (string * value)) : string :=
                match l with
                | [] => EmptyString
                | (k, v) :: l' =>
                    item_separator indent ++ newline_indent indent (S level)
                      ++ encode_basestring_ascii k ++ key_separator
                      ++ iterencode indent (S level) v ++ rest l'
                end) others
          ++ newline_indent indent level ++ "}"
  end.

Definition json_dumps (indent : option nat) (o : value) : string :=
  iterencode indent 0 o.

(** [str.encode()]: UTF-8, one byte for a code point below 128 and two for
    the others a string of this model can hold. *)
Definition bytes : Type := list byte.

Definition utf8 (c : ascii) : bytes :=
  let n := nat_of_ascii c in
  if Nat.ltb n 128 then [byte_of_ascii c]
  else [byte_of_ascii (ascii_of_nat (192 + n / 64));
        byte_of_ascii (ascii_of_nat (128 + n mod 64))].

Fixpoint encode (s : string) : bytes :=
  match s with
  | EmptyString => []
  | String c rest => (utf8 c ++ encode rest)%list
  end.

(** A text of code points below 128 only. *)
Fixpoint all_ascii (s : string) : bool :=
  match s with
  | EmptyString => true
  | String c rest => Nat.ltb (nat_of_ascii c) 128 && all_ascii rest
  end.

(** ** [str] and [repr], as an f-string field formats a value *)

Definition repr_char (quote : ascii) (c : ascii) : string :=
  let n := nat_of_ascii c in
  if Ascii.eqb c quote || Ascii.eqb c backslash then String backslash (char c)
  else if Nat.eqb n 9 then "\t"
  else if Nat.eqb n 10 then "\n"
  else if Nat.eqb n 13 then "\r"
  else if Nat.ltb n 32 || Nat.eqb n 127 then "\x" ++ hex2 n
  else if Nat.ltb n 127 then char c
  else if Nat.ltb n 161 || Nat.eqb n 173 then "\x" ++ hex2 n
  else char c.

Definition str_repr (s : string) : string :=
  let quote :=
    if mem_char squote s && negb (mem_char dquote s) then dquote else squote in
  char quote ++ concat_map (repr_char quote) s ++ char quote.

Fixpoint py_repr (o : value) : string :=
  match o with
  | VNone => "None"
  | VBool true => "True"
  | VBool false => "False"
  | VInt n => int_repr n
  | VStr s => str_repr s
  | VList [] => "[]"
  | VList (first :: others) =>
      "[" ++ py_repr first
          ++ (fix rest (l : list value) : string :=
                match l with
                | [] => EmptyString
                | x :: l' => ", " ++ py_repr x ++ rest l'
                end) others
          ++ "]"
  | VDict [] => "{}"
  | VDict ((k0, v0) :: others) =>
      "{" ++ str_repr k0 ++ ": " ++ py_repr v0
          ++ (fix rest (l : list (string * value)) : string :=
                match l with
                | [] => EmptyString
                | (k, v) :: l' => ", " ++ str_repr k ++ ": " ++ py_repr v ++ rest l'
                end) others
          ++ "}"
  end.

Definition py_str (o : value) : string :=
  match o with
  | VStr s => s
  | _ => py_repr o
  end.

(** ** Exceptions

    The five classes of [errors.py], each with the message it is raised
    with, and the built-in and transport failures the client code can run
    into. *)
Inductive exn : Type :=
| EmailExistsError (msg : string)
| LoginExistsError (msg : string)
| UserNotFoundError (msg : string)
| BadCredentialsError (msg : string)
| UnknownError (msg : string)
| KeyError (key : string)
| TypeError
| AttributeError (name : string)
| RequestException
| JSONDecodeError.

Inductive outcome (A : Type) : Type :=
| Return (a : A)
| Raise (e : exn).
Arguments Return {A} a.
Arguments Raise {A} e.

(** ** Operators on values *)

(** [bool(v)]: [None], [False], [0] and the empty string, list and
    dictionary are false. *)
Definition truthy (v : value) : bool :=
  match v with
  | VNone => false
  | VBool b => b
  | VInt n => negb (Z.eqb n 0)
  | VStr s => negb (String.eqb s EmptyString)
  | VList items => match items with [] => false | _ :: _ => true end
  | VDict entries => match entries with [] => false | _ :: _ => true end
  end.

(** [n == v] for an integer literal [n]; [True] and [False] compare as 1
    and 0. *)
Definition eq_int (n : Z) (v : value) : bool :=
  match v with
  | VInt m => Z.eqb n m
  | VBool b => Z.eqb n (if b then 1 else 0)
  | _ => false
  end.

(** [s == v] for a string literal [s]. *)
Definition eq_str (s : string) (v : value) : bool :=
  match v with
  | VStr t => String.eqb s t
  | _ => false
  end.

(** [n in c] for an integer literal [n]: membership in a list, key
    membership in a dictionary (whose keys are strings); a string only
    takes a string on the left; the other values are not containers. *)
Definition contains_int (n : Z) (c : value) : outcome bool :=
  match c with
  | VList items => Return (existsb (eq_int n) items)
  | VDict entries => Return false
  | _ => Raise TypeError
  end.

(** [s in c] for a string literal [s]. *)
Definition contains_str (s : string) (c : value) : outcome bool :=
  match c with
  | VList items => Return (existsb (eq_str s) items)
  | VDict entries => Return (match lookup s entries with Some _ => true | None => false end)
  | VStr t => Return (is_substring s t)
  | _ => Raise TypeError
  end.

(** [c[key]] for a string key: only a dictionary can be indexed by one. *)
Definition getitem (c : value) (key : string) : outcome value :=
  match c with
  | VDict entries =>
      match lookup key entries with
      | Some v => Return v
      | None => Raise (KeyError key)
      end
  | _ => Raise TypeError
  end.

Fixpoint chars (s : string) : list value :=
  match s with
  | EmptyString => []
  | String c rest => VStr (char c) :: chars rest
  end.

(** What a [for] loop sees: the items of a list, the keys of a dictionary,
    the characters of a string. *)
Definition iterate (c : value) : outcome (list value) :=
  match c with
  | VList items => Return items
  | VDict entries => Return (map (fun kv => VStr (fst kv)) entries)
  | VStr s => Return (chars s)
  | _ => Raise TypeError
  end.

(** [any(c)] *)
Definition any (c : value) : outcome bool :=
  match iterate c with
  | Return items => Return (existsb truthy items)
  | Raise e => Raise e
  end.

(** ** The HTTP library, as the client calls it *)

Inductive http_function : Type :=
| requests_post
| requests_get
| requests_delete.

(** One call [func(url, headers=..., data=...)]; [data] is [None] where the
    source passes no [data] argument. *)
Record request : Type := mkRequest {
  func : http_function;
  url : string;
  headers : list (string * value);
  data : option bytes
}.

(** The response object; [body] is [None] when the body is not JSON. *)
Record Response : Type := mkResponse { body : option value }.

(** What the network does with a request: no response at all (the
    transport raises), or a response. *)
Inductive reply : Type :=
| Unreachable
| Answered (r : Response).

(** ** types.py: the entity classes

    A dataclass instance holds its declared fields and, like any object,
    whatever attribute is assigned to it later; [_client] is no declared
    field, so it is [None] (unbound) on every instance the generated
    [__init__] builds. *)
Inductive client_ref : Type := the_client.

Record User : Type := mkUser {
  User_uid : value;
  User_nickname : value;
  User_comment : value;
  User_created_at : value;
  User__client : option client_ref
}.

Record Comment : Type := mkComment {
  Comment_uid : value;
  Comment_nickname : value;
  Comment_comment : value;
  Comment_created_at : value;
  Comment__client : option client_ref
}.

Record Post : Type := mkPost {
  Post_uid : value;
  Post_url : value;
  Post_media : value;
  Post_text : value;
  Post_user : User;
  Post_likes_count : value;
  Post_comments_count : value;
  Post_created_at : value;
  Post__client : option client_ref
}.

(** The [__init__] that [@dataclass] generates: one positional argument per
    declared field, nothing else is set. *)
Definition User__init__ (uid nickname comment created_at : value) : User :=
  mkUser uid nickname comment created_at None.

Definition Comment__init__ (uid nickname comment created_at : value) : Comment :=
  mkComment uid nickname comment created_at None.

Definition Post__init__ (uid url media text : value) (user : User)
    (likes_count comments_count created_at : value) : Post :=
  mkPost uid url media text user likes_count comments_count created_at None.

(** ** core.py: the client *)

Record GrustnogramClient : Type := mkClient { _token : value }.

(** A fresh instance: [__init__] does nothing, so [_token] is the class
    attribute [None]. *)
Definition GrustnogramClient__init__ : GrustnogramClient := mkClient VNone.

(** What a run is threaded through: the client instance, the network's own
    state, and the requests handed to the HTTP library so far, oldest
    first. *)
Record state (world : Type) : Type := mkState {
  self : GrustnogramClient;
  net : world;
  sent : list request
}.
Arguments mkState {world} self net sent.
Arguments self {world} s.
Arguments net {world} s.
Arguments sent {world} s.

(** A network that replays a fixed script: each request takes the next
    reply, and nothing answers once the script is used up. *)
Definition scripted (req : request) (w : list reply) : reply * list reply :=
  match w with
  | [] => (Unreachable, [])
  | r :: rest => (r, rest)
  end.

Definition json_response (v : value) : reply := Answered (mkResponse (Some v)).

Section Client.

(** The network: a state of its own and its answer to each request. *)
Context {world : Type}.
Variable dispatch : request -> world -> reply * world.

(** Computations: exceptions over state. A raised exception keeps the
    state reached so far. *)
Definition M (A : Type) : Type := state world -> outcome A * state world.

Definition ret {A} (a : A) : M A := fun st => (Return a, st).

Definition raise {A} (e : exn) : M A := fun st => (Raise e, st).

Definition bind {A B} (m : M A) (k : A -> M B) : M B :=
  fun st =>
    match m st with
    | (Return a, st') => k a st'
    | (Raise e, st') => (Raise e, st')
    end.

Notation "x <- m ;; k" := (bind m (fun x => k))
  (at level 61, m at next level, right associativity).
Notation "m ;; k" := (bind m (fun _ => k))
  (at level 61, right associativity).

Definition lift {A} (o : outcome A) : M A :=
  match o with
  | Return a => ret a
  | Raise e => raise e
  end.

(** An awaitable: the suspended body of an [async def] call. *)
Inductive coroutine (A : Type) : Type :=
| Coroutine (body : M A).
Arguments Coroutine {A} body.

(** [await c] runs the body to completion. *)
Definition await {A} (c : coroutine A) : M A :=
  match c with
  | Coroutine body => body
  end.

(** An expression statement: the value is computed and dropped. For a call
    of an [async def] written without [await] the value is the coroutine
    object, so its body does not run. *)
Definition expr_stmt {A} (v : A) : M unit := ret tt.

(** [self._token = v] *)
Definition set_token (v : value) : M unit :=
  fun st => (Return tt, mkState (mkClient v) (net st) (sent st)).

(** [self._token] *)
Definition get_token : M value :=
  fun st => (Return (_token (self st)), st).

(** [run_sync(func, url, headers=..., data=...)]: the call runs in the
    executor; awaiting it yields the response or the transport's
    exception. *)
Definition run_sync (f : http_function) (u : string)
    (h : list (string * value)) (d : option bytes) : coroutine Response :=
  Coroutine (fun st =>
    let req := mkRequest f u h d in
    let (r, w) := dispatch req (net st) in
    let st' := mkState (self st) w (sent st ++ [req])%list in
    match r with
    | Unreachable => (Raise RequestException, st')
    | Answered resp => (Return resp, st')
    end).

(** [response.json()] *)
Definition Response_json (r : Response) : M value :=
  match body r with
  | Some v => ret v
  | None => raise JSONDecodeError
  end.

(** [_validate_result] *)
Definition _validate_result (result : value) : coroutine unit :=
  Coroutine (
    absent <- lift (match contains_str "err" result with
                    | Return b => Return (negb b)
                    | Raise e => Raise e
                    end) ;;
    falsy <- (if absent then ret true
              else err <- lift (getitem result "err") ;; ret (negb (truthy err))) ;;
    if falsy then ret tt
    else
      err <- lift (getitem result "err") ;;
      has100 <- lift (contains_int 100 err) ;;
      if has100 then raise (EmailExistsError "Specified email already exists")
      else
        has101 <- lift (contains_int 101 err) ;;
        if has101 then raise (LoginExistsError "Specified login already exists")
        else
          has102 <- lift (contains_int 102 err) ;;
          if has102 then raise (UserNotFoundError "Specified user not found")
          else
            has103 <- lift (contains_int 103 err) ;;
            if has103 then raise (BadCredentialsError "Specified password is invalid")
            else
              some <- lift (any err) ;;
              if some then raise (UnknownError (json_dumps (Some 4) result))
              else ret tt).

(** [login]. As in every operation below, [self._validate_result(result)]
    stands as a statement without [await]. *)
Definition login (login_ password : value) : coroutine bool :=
  Coroutine (
    response <- await (run_sync requests_post
      "https://api.grustnogram.ru/sessions"
      [("accept", VStr "application/json");
       ("content-type", VStr "application/x-www-form-urlencoded");
       ("user-agent", VStr "Python SDK")]
      (Some (encode (json_dumps None
         (VDict [("email", login_); ("password", password)]))))) ;;
    result <- Response_json response ;;
    expr_stmt (_validate_result result) ;;
    d <- lift (getitem result "data") ;;
    tok <- lift (getitem d "access_token") ;;
    set_token tok ;;
    ret true).

(** [register]; [code_handler] is the caller's callable. *)
Definition register (nickname email password phone : value)
    (code_handler : unit -> value) : coroutine bool :=
  Coroutine (
    response <- await (run_sync requests_post
      "https://api.grustnogram.ru/users"
      [("accept", VStr "application/json");
       ("content-type", VStr "application/x-www-form-urlencoded");
       ("user-agent", VStr "Python SDK")]
      (Some (encode (json_dumps None
         (VDict [("nickname", nickname); ("email", email);
                 ("password", password); ("password_confirm", password)]))))) ;;
    result <- Response_json response ;;
    expr_stmt (_validate_result result) ;;
    d <- lift (getitem result "data") ;;
    phone_key <- lift (getitem d "phone_key") ;;
    response <- await (run_sync requests_post
      "https://api.grustnogram.ru/callme"
      [("accept", VStr "application/json");
       ("content-type", VStr "application/x-www-form-urlencoded");
       ("user-agent", VStr "Python SDK")]
      (Some (encode (json_dumps None
         (VDict [("phone_key", phone_key); ("phone", phone)]))))) ;;
    result <- Response_json response ;;
    expr_stmt (_validate_result result) ;;
    let code := code_handler tt in
    response <- await (run_sync requests_post
      "https://api.grustnogram.ru/phoneactivate"
      [("accept", VStr "application/json");
       ("content-type", VStr "application/x-www-form-urlencoded");
       ("user-agent", VStr "Python SDK")]
      (Some (encode (json_dumps None
         (VDict [("code", code); ("phone", phone)]))))) ;;
    result <- Response_json response ;;
    expr_stmt (_validate_result result) ;;
    d <- lift (getitem result "data") ;;
    tok <- lift (getitem d "access_token") ;;
    set_token tok ;;
    ret true).

(** [like_post] *)
Definition like_post (post_id : value) : coroutine bool :=
  Coroutine (
    tok <- get_token ;;
    response <- await (run_sync requests_post
      ("https://api.grustnogram.ru/posts/" ++ py_str post_id ++ "/like")
      [("accept", VStr "application/json");
       ("content-type", VStr "application/x-www-form-urlencoded");
       ("user-agent", VStr "Python SDK");
       ("access-token", tok)]
      None) ;;
    result <- Response_json response ;;
    expr_stmt (_validate_result result) ;;
    ret true).

(** [dislike_post] *)
Definition dislike_post (post_id : value) : coroutine bool :=
  Coroutine (
    tok <- get_token ;;
    response <- await (run_sync requests_delete
      ("https://api.grustnogram.ru/posts/" ++ py_str post_id ++ "/like")
      [("accept", VStr "application/json");
       ("content-type", VStr "application/x-www-form-urlencoded");
       ("user-agent", VStr "Python SDK");
       ("access-token", tok)]
      None) ;;
    result <- Response_json response ;;
    expr_stmt (_validate_result result) ;;
    ret true).

(** [like_comment] *)
Definition like_comment (comment_id : value) : coroutine bool :=
  Coroutine (
    tok <- get_token ;;
    response <- await (run_sync requests_post
      ("https://api.grustnogram.ru/comments/" ++ py_str comment_id ++ "/like")
      [("accept", VStr "application/json");
       ("content-type", VStr "application/x-www-form-urlencoded");
       ("user-agent", VStr "Python SDK");
       ("access-token", tok)]
      None) ;;
    result <- Response_json response ;;
    expr_stmt (_validate_result result) ;;
    ret true).

(** [dislike_comment] *)
Definition dislike_comment (comment_id : value) : coroutine bool :=
  Coroutine (
    tok <- get_token ;;
    response <- await (run_sync requests_delete
      ("https://api.grustnogram.ru/comments/" ++ py_str comment_id ++ "/like")
      [("accept", VStr "application/json");
       ("content-type", VStr "application/x-www-form-urlencoded");
       ("user-agent", VStr "Python SDK");
       ("access-token", tok)]
      None) ;;
    result <- Response_json response ;;
    expr_stmt (_validate_result result) ;;
    ret true).

(** [comment_post] *)
Definition comment_post (post_id comment : value) : coroutine Comment :=
  Coroutine (
    tok <- get_token ;;
    response <- await (run_sync requests_post
      ("https://api.grustnogram.ru/posts/" ++ py_str post_id ++ "/comments")
      [("accept", VStr "application/json");
       ("content-type", VStr "application/x-www-form-urlencoded");
       ("user-agent", VStr "Python SDK");
       ("access-token", tok)]
      (Some (encode (json_dumps None (VDict [("comment", comment)]))))) ;;
    result <- Response_json response ;;
    expr_stmt (_validate_result result) ;;
    d <- lift (getitem result "data") ;;
    uid <- lift (getitem d "id") ;;
    d <- lift (getitem result "data") ;;
    nickname <- lift (getitem d "nickname") ;;
    d <- lift (getitem result "data") ;;
    text <- lift (getitem d "comment") ;;
    d <- lift (getitem result "data") ;;
    created_at <- lift (getitem d "created_at") ;;
    ret (Comment__init__ uid nickname text created_at)).

(** [delete_comment] *)
Definition delete_comment (comment_id : value) : coroutine bool :=
  Coroutine (
    tok <- get_token ;;
    response <- await (run_sync requests_delete
      ("https://api.grustnogram.ru/posts/comment/" ++ py_str comment_id)
      [("accept", VStr "application/json");
       ("content-type", VStr "application/x-www-form-urlencoded");
       ("user-agent", VStr "Python SDK");
       ("access-token", tok)]
      None) ;;
    result <- Response_json response ;;
    expr_stmt (_validate_result result) ;;
    ret true).

(** The element expression of the list comprehension in [get_comments]. *)
Definition comment_of (comment : value) : M Comment :=
  uid <- lift (getitem comment "id") ;;
  nickname <- lift (getitem comment "nickname") ;;
  text <- lift (getitem comment "comment") ;;
  created_at <- lift (getitem comment "created_at") ;;
  ret (Comment__init__ uid nickname text created_at).

(** [[f(x) for x in items]]: left to right, the first exception ends it. *)
Fixpoint comprehension {A} (f : value -> M A) (items : list value) : M (list A) :=
  match items with
  | [] => ret []
  | x :: rest =>
      a <- f x ;;
      others <- comprehension f rest ;;
      ret (a :: others)
  end.

(** [get_comments]; the source's defaults are [limit=10], [offset=0]. *)
Definition get_comments (post_id limit offset : value) : coroutine (list Comment) :=
  Coroutine (
    tok <- get_token ;;
    response <- await (run_sync requests_get
      ("https://api.grustnogram.ru/posts/" ++ py_str post_id ++ "/comments")
      [("accept", VStr "application/json");
       ("content-type", VStr "application/x-www-form-urlencoded");
       ("user-agent", VStr "Python SDK");
       ("access-token", tok)]
      (Some (encode (json_dumps None
         (VDict [("limit", limit); ("offset", offset)]))))) ;;
    result <- Response_json response ;;
    expr_stmt (_validate_result result) ;;
    d <- lift (getitem result "data") ;;
    items <- lift (iterate d) ;;
    comprehension comment_of items).

Definition default_limit : value := VInt 10.
Definition default_offset : value := VInt 0.

(** [complaint]; [text] is [None] when the caller gives none. *)
Definition complaint (post_id complaint_type text : value) : coroutine bool :=
  Coroutine (
    tok <- get_token ;;
    response <- await (run_sync requests_post
      ("https://api.grustnogram.ru/posts/" ++ py_str post_id ++ "/complaint")
      [("accept", VStr "application/json");
       ("content-type", VStr "application/x-www-form-urlencoded");
       ("user-agent", VStr "Python SDK");
       ("access-token", tok)]
      (Some (encode (json_dumps None
         (VDict [("type", complaint_type); ("text", text)]))))) ;;
    result <- Response_json response ;;
    expr_stmt (_validate_result result) ;;
    ret true).

Definition default_text : value := VNone.

(** [delete_post] *)
Definition delete_post (post_id : value) : coroutine bool :=
  Coroutine (
    tok <- get_token ;;
    response <- await (run_sync requests_delete
      ("https://api.grustnogram.ru/posts/" ++ py_str post_id)
      [("accept", VStr "application/json");
       ("content-type", VStr "application/x-www-form-urlencoded");
       ("user-agent", VStr "Python SDK");
       ("access-token", tok)]
      None) ;;
    result <- Response_json response ;;
    expr_stmt (_validate_result result) ;;
    ret true).

(** ** types.py: the convenience methods

    [self._client] is an attribute lookup: it raises [AttributeError] on an
    instance nothing has bound the attribute on. The methods without a
    [return] statement return [None]. *)
Definition getattr__client (attr : option client_ref) : M client_ref :=
  match attr with
  | Some c => ret c
  | None => raise (AttributeError "_client")
  end.

Definition User_delete (this : User) : coroutine value :=
  Coroutine (
    getattr__client (User__client this) ;;
    await (delete_comment (User_uid this)) ;;
    ret VNone).

Definition Comment_delete (this : Comment) : coroutine value :=
  Coroutine (
    getattr__client (Comment__client this) ;;
    await (delete_comment (Comment_uid this)) ;;
    ret VNone).

Definition Comment_like (this : Comment) : coroutine value :=
  Coroutine (
    getattr__client (Comment__client this) ;;
    await (like_comment (Comment_uid this)) ;;
    ret VNone).

Definition Comment_dislike (this : Comment) : coroutine value :=
  Coroutine (
    getattr__client (Comment__client this) ;;
    await (dislike_comment (Comment_uid this)) ;;
    ret VNone).

Definition Post_delete (this : Post) : coroutine value :=
  Coroutine (
    getattr__client (Post__client this) ;;
    await (delete_post (Post_uid this)) ;;
    ret VNone).

Definition Post_like (this : Post) : coroutine value :=
  Coroutine (
    getattr__client (Post__client this) ;;
    await (like_post (Post_uid this)) ;;
    ret VNone).

Definition Post_dislike (this : Post) : coroutine value :=
  Coroutine (
    getattr__client (Post__client this) ;;
    await (dislike_post (Post_uid this)) ;;
    ret VNone).

Definition Post_comment (this : Post) (text : value) : coroutine Comment :=
  Coroutine (
    getattr__client (Post__client this) ;;
    await (comment_post (Post_uid this) text)).

(** ** The calls each operation hands to the HTTP library, spelled out *)

Definition login_request (login_ password : value) : request :=
  mkRequest requests_post "https://api.grustnogram.ru/sessions"
    [("accept", VStr "application/json");
     ("content-type", VStr "application/x-www-form-urlencoded");
     ("user-agent", VStr "Python SDK")]
    (Some (encode (json_dumps None
       (VDict [("email", login_); ("password", password)])))).

Definition get_comments_request (tok post_id limit offset : value) : request :=
  mkRequest requests_get
    ("https://api.grustnogram.ru/posts/" ++ py_str post_id ++ "/comments")
    [("accept", VStr "application/json");
     ("content-type", VStr "application/x-www-form-urlencoded");
     ("user-agent", VStr "Python SDK");
     ("access-token", tok)]
    (Some (encode (json_dumps None
       (VDict [("limit", limit); ("offset", offset)])))).

(** The state after the network has taken [req]. *)
Definition after (req : request) (st : state world) : state world :=
  mkState (self st) (snd (dispatch req (net st))) (sent st ++ [req])%list.

Definition like_post_request (tok post_id : value) : request :=
  mkRequest requests_post
    ("https://api.grustnogram.ru/posts/" ++ py_str post_id ++ "/like")
    [("accept", VStr "application/json");
     ("content-type", VStr "application/x-www-form-urlencoded");
     ("user-agent", VStr "Python SDK");
     ("access-token", tok)]
    None.

Definition complaint_request (tok post_id complaint_type text : value) : request :=
  mkRequest requests_post
    ("https://api.grustnogram.ru/posts/" ++ py_str post_id ++ "/complaint")
    [("accept", VStr "application/json");
     ("content-type", VStr "application/x-www-form-urlencoded");
     ("user-agent", VStr "Python SDK");
     ("access-token", tok)]
    (Some (encode (json_dumps None
       (VDict [("type", complaint_type); ("text", text)])))).

Definition users_request (nickname email password : value) : request :=
  mkRequest requests_post "https://api.grustnogram.ru/users"
    [("accept", VStr "application/json");
     ("content-type", VStr "application/x-www-form-urlencoded");
     ("user-agent", VStr "Python SDK")]
    (Some (encode (json_dumps None
       (VDict [("nickname", nickname); ("email", email);
               ("password", password); ("password_confirm", password)])))).

Definition callme_request (phone_key phone : value) : request :=
  mkRequest requests_post "https://api.grustnogram.ru/callme"
    [("accept", VStr "application/json");
     ("content-type", VStr "application/x-www-form-urlencoded");
     ("user-agent", VStr "Python SDK")]
    (Some (encode (json_dumps None
       (VDict [("phone_key", phone_key); ("phone", phone)])))).

Definition phoneactivate_request (code phone : value) : request :=
  mkRequest requests_post "https://api.grustnogram.ru/phoneactivate"
    [("accept", VStr "application/json");
     ("content-type", VStr "application/x-www-form-urlencoded");
     ("user-agent", VStr "Python SDK")]
    (Some (encode (json_dumps None
       (VDict [("code", code); ("phone", phone)])))).

Definition delete_comment_request (tok comment_id : value) : request :=
  mkRequest requests_delete
    ("https://api.grustnogram.ru/posts/comment/" ++ py_str comment_id)
    [("accept", VStr "application/json");
     ("content-type", VStr "application/x-www-form-urlencoded");
     ("user-agent", VStr "Python SDK");
     ("access-token", tok)]
    None.

(** A JSON object with the four entries a [Comment] is built from. *)
Definition comment_object (o : value) : bool :=
  match o with
  | VDict entries =>
      match lookup "id" entries, lookup "nickname" entries,
            lookup "comment" entries, lookup "created_at" entries with
      | Some _, Some _, Some _, Some _ => true
      | _, _, _, _ => false
      end
  | _ => false
  end.

(** [c] has, field for field, what the JSON object [o] has under [id],
    [nickname], [comment] and [created_at]. *)
Definition field_for_field (o : value) (c : Comment) : Prop :=
  getitem o "id" = Return (Comment_uid c)
  /\ getitem o "nickname" = Return (Comment_nickname c)
  /\ getitem o "comment" = Return (Comment_comment c)
  /\ getitem o "created_at" = Return (Comment_created_at c).

(** The exceptions of [errors.py]: what the API reports, as opposed to what
    the transport or the interpreter raises. *)
Definition api_error (e : exn) : bool :=
  match e with
  | EmailExistsError _ | LoginExistsError _ | UserNotFoundError _
  | BadCredentialsError _ | UnknownError _ => true
  | _ => false
  end.

(** A computation that leaves the session token as it found it, whatever
    its outcome. *)
Definition keeps_token {A} (m : M A) : Prop :=
  forall st, _token (self (snd (m st))) = _token (self st).

(** A text between double quotes. *)
Definition quoted (s : string) : string := char dquote ++ s ++ char dquote.

(** The headers of an authenticated call. *)
Definition auth_headers (tok : value) : list (string * value) :=
  [("accept", VStr "application/json");
   ("content-type", VStr "application/x-www-form-urlencoded");
   ("user-agent", VStr "Python SDK");
   ("access-token", tok)].

Definition dislike_post_request (tok post_id : value) : request :=
  mkRequest requests_delete
    ("https://api.grustnogram.ru/posts/" ++ py_str post_id ++ "/like")
    (auth_headers tok) None.

Definition like_comment_request (tok comment_id : value) : request :=
  mkRequest requests_post
    ("https://api.grustnogram.ru/comments/" ++ py_str comment_id ++ "/like")
    (auth_headers tok) None.

Definition dislike_comment_request (tok comment_id : value) : request :=
  mkRequest requests_delete
    ("https://api.grustnogram.ru/comments/" ++ py_str comment_id ++ "/like")
    (auth_headers tok) None.

Definition comment_post_request (tok post_id comment : value) : request :=
  mkRequest requests_post
    ("https://api.grustnogram.ru/posts/" ++ py_str post_id ++ "/comments")
    (auth_headers tok)
    (Some (encode (json_dumps None (VDict [("comment", comment)])))).

Definition delete_post_request (tok post_id : value) : request :=
  mkRequest requests_delete
    ("https://api.grustnogram.ru/posts/" ++ py_str post_id)
    (auth_headers tok) None.

(** A computation that sends nothing and changes nothing. *)
Definition keeps_state {A} (m : M A) : Prop :=
  forall st, snd (m st) = st.

(** A computation that raises none of the exceptions of [errors.py]. *)
Definition no_api_error {A} (m : M A) : Prop :=
  forall st e, fst (m st) = Raise e -> api_error e = false.

(** A computation that, when it raises, has left the session token as it
    found it. *)
Definition raise_keeps_token {A} (m : M A) : Prop :=
  forall st e, fst (m st) = Raise e ->
               _token (self (snd (m st))) = _token (self st).

(** What an entity method makes of the outcome of the client operation it
    calls: the exception as it is, [None] in place of the result. *)
Definition returns_None {A} (run : outcome A * state world)
    : outcome value * state world :=
  match run with
  | (Return _, st) => (Return VNone, st)
  | (Raise e, st) => (Raise e, st)
  end.

(** The two ways the transport fails under a computation whose first call
    is [req]: no response, and a response whose body is not JSON. *)
Definition surfaces_transport_failure {A} (req : value -> request) (m : M A)
    : Prop :=
  forall st,
    (fst (dispatch (req (_token (self st))) (net st)) = Unreachable ->
       fst (m st) = Raise RequestException)
    /\ (fst (dispatch (req (_token (self st))) (net st))
          = Answered (mkResponse None) ->
       fst (m st) = Raise JSONDecodeError).

(** ** The encoder writes ASCII, which [encode] leaves as it is *)

Lemma all_ascii_app s t :
  all_ascii s = true -> all_ascii t = true -> all_ascii (s ++ t) = true.
Proof.
  intros Hs Ht. induction s as [ | c s IH]; simpl in *; [exact Ht | ].
  apply andb_true_iff in Hs. destruct Hs as [Hc Hs].
  rewrite Hc, (IH Hs). reflexivity.
Qed.

Lemma encode_ascii s :
  all_ascii s = true -> encode s = list_byte_of_string s.
Proof.
  induction s as [ | c s IH]; simpl; intros Hs; [reflexivity | ].
  apply andb_true_iff in Hs. destruct Hs as [Hc Hs].
  unfold utf8. rewrite Hc, (IH Hs). reflexivity.
Qed.

Lemma all_ascii_string_of_uint d :
  all_ascii (NilZero.string_of_uint d) = true.
Proof.
  destruct d as [ | d | d | d | d | d | d | d | d | d | d]; simpl;
    try reflexivity;
    induction d as [ | d IH | d IH | d IH | d IH | d IH | d IH | d IH | d IH
                     | d IH | d IH ]; simpl; try reflexivity; exact IH.
Qed.

Lemma all_ascii_int_repr n : all_ascii (int_repr n) = true.
Proof.
  unfold int_repr, NilZero.string_of_int.
  destruct (Z.to_int n) as [d | d]; simpl; apply all_ascii_string_of_uint.
Qed.

Lemma all_ascii_hex2 n : n < 256 -> all_ascii (hex2 n) = true.
Proof.
  intros Hn. unfold hex2.
  assert (Hdigit : forall k, k < 16 ->
            Nat.ltb (nat_of_ascii (hexdigit k)) 128 = true).
  { intros k Hk. do 16 (destruct k as [ | k]; [reflexivity | ]). lia. }
  cbn [all_ascii]. rewrite (Hdigit (n / 16)), (Hdigit (n mod 16)).
  - reflexivity.
  - apply Nat.mod_upper_bound. discriminate.
  - apply Nat.Div0.div_lt_upper_bound. exact Hn.
Qed.

Lemma all_ascii_escape_ascii c : all_ascii (escape_ascii c) = true.
Proof.
  unfold escape_ascii.
  destruct (Ascii.eqb c backslash); [reflexivity | ].
  destruct (Ascii.eqb c dquote); [reflexivity | ].
  destruct (Nat.eqb (nat_of_ascii c) 8); [reflexivity | ].
  destruct (Nat.eqb (nat_of_ascii c) 12); [reflexivity | ].
  destruct (Nat.eqb (nat_of_ascii c) 10); [reflexivity | ].
  destruct (Nat.eqb (nat_of_ascii c) 13); [reflexivity | ].
  destruct (Nat.eqb (nat_of_ascii c) 9); [reflexivity | ].
  destruct (Nat.ltb (nat_of_ascii c) 32 || Nat.ltb 126 (nat_of_ascii c)) eqn:E.
  - apply (all_ascii_app "\u00"); [reflexivity | ].
    apply all_ascii_hex2. apply nat_ascii_bounded.
  - apply orb_false_iff in E. destruct E as [_ E].
    apply Nat.ltb_ge in E. simpl. rewrite andb_true_r.
    apply Nat.ltb_lt. lia.
Qed.

Lemma all_ascii_encode_basestring_ascii s :
  all_ascii (encode_basestring_ascii s) = true.
Proof.
  unfold encode_basestring_ascii.
  apply all_ascii_app; [reflexivity | ].
  apply all_ascii_app; [ | reflexivity].
  induction s as [ | c s IH]; simpl; [reflexivity | ].
  apply all_ascii_app; [apply all_ascii_escape_ascii | exact IH].
Qed.

Lemma all_ascii_newline_indent indent level :
  all_ascii (newline_indent indent level) = true.
Proof.
  destruct indent as [k | ]; simpl; [ | reflexivity].
  induction (k * level) as [ | n IH]; simpl; [reflexivity | exact IH].
Qed.

Lemma all_ascii_item_separator indent :
  all_ascii (item_separator indent) = true.
Proof. destruct indent; reflexivity. Qed.

Create HintDb ascii_text.
#[local] Hint Resolve all_ascii_app all_ascii_int_repr
  all_ascii_encode_basestring_ascii all_ascii_newline_indent
  all_ascii_item_separator : ascii_text.

Lemma all_ascii_iterencode indent o :
  forall level, all_ascii (iterencode indent level o) = true.
Proof.
  induction o as [ | [ | ] | n | s | items IH | entries IH]
    using value_nested_ind; intros level; try reflexivity.
  - apply all_ascii_int_repr.
  - apply all_ascii_encode_basestring_ascii.
  - destruct IH as [ | first others Hfirst Hothers]; [reflexivity | ].
    cbn [iterencode].
    apply (all_ascii_app "["); [reflexivity | ].
    repeat (apply all_ascii_app; auto with ascii_text).
    induction Hothers as [ | x l' Hx _ IHl]; [reflexivity | ].
    repeat (apply all_ascii_app; auto with ascii_text).
  - destruct IH as [ | [k0 v0] others Hfirst Hothers]; [reflexivity | ].
    cbn [iterencode]. simpl in Hfirst.
    apply (all_ascii_app "{"); [reflexivity | ].
    repeat (apply all_ascii_app; auto with ascii_text); try reflexivity.
    induction Hothers as [ | [k v] l' Hx _ IHl]; [reflexivity | ].
    simpl in Hx.
    repeat (apply all_ascii_app; auto with ascii_text); reflexivity.
Qed.

(** What [json.dumps(...).encode()] hands over is the text itself, byte for
    character. *)
Lemma encode_json_dumps indent o :
  encode (json_dumps indent o) = list_byte_of_string (json_dumps indent o).
Proof. apply encode_ascii. apply all_ascii_iterencode. Qed.

(** ** Running a computation step by step *)

Lemma bind_return {A B} (m : M A) (k : A -> M B) st a st' :
  m st = (Return a, st') -> bind m k st = k a st'.
Proof. intros H. unfold bind. rewrite H. reflexivity. Qed.

Lemma bind_raise {A B} (m : M A) (k : A -> M B) st e st' :
  m st = (Raise e, st') -> bind m k st = (Raise e, st').
Proof. intros H. unfold bind. rewrite H. reflexivity. Qed.

Lemma run_sync_answered f u h d st resp :
  fst (dispatch (mkRequest f u h d) (net st)) = Answered resp ->
  await (run_sync f u h d) st = (Return resp, after (mkRequest f u h d) st).
Proof.
  intros H. unfold after. simpl.
  destruct (dispatch (mkRequest f u h d) (net st)) as [r w].
  simpl in H. subst r. reflexivity.
Qed.

Lemma run_sync_unreachable f u h d st :
  fst (dispatch (mkRequest f u h d) (net st)) = Unreachable ->
  await (run_sync f u h d) st
  = (Raise RequestException, after (mkRequest f u h d) st).
Proof.
  intros H. unfold after. simpl.
  destruct (dispatch (mkRequest f u h d) (net st)) as [r w].
  simpl in H. subst r. reflexivity.
Qed.

Lemma bind_run_sync {B} f u h d (k : Response -> M B) st :
  bind (await (run_sync f u h d)) k st =
    match fst (dispatch (mkRequest f u h d) (net st)) with
    | Unreachable => (Raise RequestException, after (mkRequest f u h d) st)
    | Answered resp => k resp (after (mkRequest f u h d) st)
    end.
Proof.
  unfold bind, after. simpl.
  destruct (dispatch (mkRequest f u h d) (net st)) as [[ | resp] w]; reflexivity.
Qed.

Lemma bind_Response_json {B} r (k : value -> M B) st :
  bind (Response_json r) k st =
    match body r with
    | Some v => k v st
    | None => (Raise JSONDecodeError, st)
    end.
Proof. unfold bind, Response_json. destruct (body r); reflexivity. Qed.

Lemma bind_lift {A B} (o : outcome A) (k : A -> M B) st :
  bind (lift o) k st =
    match o with
    | Return a => k a st
    | Raise e => (Raise e, st)
    end.
Proof. destruct o; reflexivity. Qed.

Lemma bind_expr_stmt {A B} (v : A) (k : unit -> M B) st :
  bind (expr_stmt v) k st = k tt st.
Proof. reflexivity. Qed.

Lemma bind_get_token {B} (k : value -> M B) st :
  bind get_token k st = k (_token (self st)) st.
Proof. reflexivity. Qed.

Lemma bind_set_token {B} v (k : unit -> M B) st :
  bind (set_token v) k st = k tt (mkState (mkClient v) (net st) (sent st)).
Proof. reflexivity. Qed.

Lemma bind_getattr {B} attr (k : client_ref -> M B) st :
  bind (getattr__client attr) k st =
    match attr with
    | Some c => k c st
    | None => (Raise (AttributeError "_client"), st)
    end.
Proof. destruct attr; reflexivity. Qed.

(** Unfolds the leading statement and splits on what it met. *)
Ltac walk :=
  repeat first
    [ rewrite bind_get_token | rewrite bind_expr_stmt | rewrite bind_set_token
    | rewrite bind_run_sync;
      match goal with
      | |- context [match fst (dispatch ?r ?w) with _ => _ end] =>
          let E := fresh "Hreply" in destruct (fst (dispatch r w)) eqn:E
      end
    | rewrite bind_Response_json;
      match goal with
      | |- context [match body ?r with _ => _ end] =>
          let E := fresh "Hbody" in destruct (body r) eqn:E
      end
    | rewrite bind_lift;
      match goal with
      | |- context [match getitem ?c ?k with _ => _ end] =>
          let E := fresh "Hitem" in destruct (getitem c k) eqn:E
      | |- context [match iterate ?c with _ => _ end] =>
          let E := fresh "Hiter" in destruct (iterate c) eqn:E
      | |- _ => cbv beta iota
      end ].

(** Runs the leading statements whose outcome is known. *)
Ltac run :=
  repeat (erewrite bind_return
            by solve [ eassumption
                     | reflexivity
                     | apply run_sync_answered; eassumption ]).

(** ** Frame conditions *)

Lemma keeps_token_ret {A} (a : A) : keeps_token (ret a).
Proof. intros st. reflexivity. Qed.

Lemma keeps_token_raise {A} (e : exn) : keeps_token (@raise A e).
Proof. intros st. reflexivity. Qed.

Lemma keeps_token_lift {A} (o : outcome A) : keeps_token (lift o).
Proof. destruct o; intros st; reflexivity. Qed.

Lemma keeps_token_bind {A B} (m : M A) (k : A -> M B) :
  keeps_token m -> (forall a, keeps_token (k a)) -> keeps_token (bind m k).
Proof.
  intros Hm Hk st. unfold bind.
  specialize (Hm st). destruct (m st) as [[a | e] st1]; simpl in *.
  - rewrite Hk. exact Hm.
  - exact Hm.
Qed.

Lemma keeps_token_expr_stmt {A} (v : A) : keeps_token (expr_stmt v).
Proof. intros st. reflexivity. Qed.

Lemma keeps_token_get_token : keeps_token get_token.
Proof. intros st. reflexivity. Qed.

Lemma keeps_token_run_sync f u h d : keeps_token (await (run_sync f u h d)).
Proof.
  intros st. simpl.
  destruct (dispatch (mkRequest f u h d) (net st)) as [[ | resp] w]; reflexivity.
Qed.

Lemma keeps_token_Response_json r : keeps_token (Response_json r).
Proof. unfold Response_json. destruct (body r); intros st; reflexivity. Qed.

Lemma keeps_token_comprehension {A} (f : value -> M A) (items : list value) :
  (forall x, keeps_token (f x)) -> keeps_token (comprehension f items).
Proof.
  intros Hf. induction items as [ | x rest IH]; simpl.
  - apply keeps_token_ret.
  - apply keeps_token_bind; [apply Hf | intros a].
    apply keeps_token_bind; [exact IH | intros others].
    apply keeps_token_ret.
Qed.

Lemma keeps_token_getattr attr : keeps_token (getattr__client attr).
Proof. destruct attr; intros st; reflexivity. Qed.

Ltac frame :=
  repeat first
    [ apply keeps_token_ret | apply keeps_token_raise | apply keeps_token_lift
    | apply keeps_token_expr_stmt | apply keeps_token_get_token
    | apply keeps_token_run_sync | apply keeps_token_Response_json
    | apply keeps_token_getattr
    | apply keeps_token_comprehension; intros
    | apply keeps_token_bind; [ | intros ] ].

Lemma keeps_token_comment_of x : keeps_token (comment_of x).
Proof. unfold comment_of. frame. Qed.

Lemma keeps_token_like_post post_id :
  keeps_token (await (like_post post_id)).
Proof. simpl. frame. Qed.

Lemma keeps_token_dislike_post post_id :
  keeps_token (await (dislike_post post_id)).
Proof. simpl. frame. Qed.

Lemma keeps_token_like_comment comment_id :
  keeps_token (await (like_comment comment_id)).
Proof. simpl. frame. Qed.

Lemma keeps_token_dislike_comment comment_id :
  keeps_token (await (dislike_comment comment_id)).
Proof. simpl. frame. Qed.

Lemma keeps_token_comment_post post_id text :
  keeps_token (await (comment_post post_id text)).
Proof. simpl. frame. Qed.

Lemma keeps_token_delete_comment comment_id :
  keeps_token (await (delete_comment comment_id)).
Proof. simpl. frame. Qed.

Lemma keeps_token_get_comments post_id limit offset :
  keeps_token (await (get_comments post_id limit offset)).
Proof. simpl. frame. Qed.

Lemma keeps_token_complaint post_id complaint_type text :
  keeps_token (await (complaint post_id complaint_type text)).
Proof. simpl. frame. Qed.

Lemma keeps_token_delete_post post_id :
  keeps_token (await (delete_post post_id)).
Proof. simpl. frame. Qed.

(** C6: the session token is written by [login] and [register] alone: each
    of the nine other operations, run to completion from any state against
    any network, leaves the client's token equal to its value before the
    call, whether the call returns or raises. *)
Theorem token_written_only_by_login_and_register :
  forall (post_id comment_id text complaint_type limit offset : value)
         (st : state world),
    _token (self (snd (await (like_post post_id) st))) = _token (self st)
    /\ _token (self (snd (await (dislike_post post_id) st))) = _token (self st)
    /\ _token (self (snd (await (like_comment comment_id) st))) = _token (self st)
    /\ _token (self (snd (await (dislike_comment comment_id) st))) = _token (self st)
    /\ _token (self (snd (await (comment_post post_id text) st))) = _token (self st)
    /\ _token (self (snd (await (delete_comment comment_id) st))) = _token (self st)
    /\ _token (self (snd (await (get_comments post_id limit offset) st)))
         = _token (self st)
    /\ _token (self (snd (await (complaint post_id complaint_type text) st)))
         = _token (self st)
    /\ _token (self (snd (await (delete_post post_id) st))) = _token (self st).
Proof.
  intros post_id comment_id text complaint_type limit offset st.
  repeat split.
  - apply keeps_token_like_post.
  - apply keeps_token_dislike_post.
  - apply keeps_token_like_comment.
  - apply keeps_token_dislike_comment.
  - apply keeps_token_comment_post.
  - apply keeps_token_delete_comment.
  - apply keeps_token_get_comments.
  - apply keeps_token_complaint.
  - apply keeps_token_delete_post.
Qed.

(** ** Validation of the response envelope *)

(** For a code above 1, [n in err] is plain membership of the integer: no
    boolean compares equal to it. *)
Lemma existsb_eq_int (n : Z) (err : list value) :
  (1 < n)%Z -> existsb (eq_int n) err = true <-> In (VInt n) err.
Proof.
  intros Hn. rewrite existsb_exists. split.
  - intros [v [Hin Heq]]. destruct v as [ | [ | ] | m | | | ]; simpl in Heq;
      try discriminate.
    + apply Z.eqb_eq in Heq. lia.
    + apply Z.eqb_eq in Heq. lia.
    + apply Z.eqb_eq in Heq. subst m. exact Hin.
  - intros Hin. exists (VInt n). split; [exact Hin | apply Z.eqb_refl].
Qed.

Lemma existsb_eq_int_false (n : Z) (err : list value) :
  (1 < n)%Z -> ~ In (VInt n) err -> existsb (eq_int n) err = false.
Proof.
  intros Hn Hnot. destruct (existsb (eq_int n) err) eqn:E; [ | reflexivity].
  apply existsb_eq_int in E; [contradiction | exact Hn].
Qed.

(** The body of [_validate_result] on an envelope whose [err] is a
    non-empty list: the cascade of membership tests. *)
Lemma validate_result_cascade entries first others st :
  lookup "err" entries = Some (VList (first :: others)) ->
  await (_validate_result (VDict entries)) st =
    (let err := first :: others in
     if existsb (eq_int 100) err
     then Raise (EmailExistsError "Specified email already exists")
     else if existsb (eq_int 101) err
     then Raise (LoginExistsError "Specified login already exists")
     else if existsb (eq_int 102) err
     then Raise (UserNotFoundError "Specified user not found")
     else if existsb (eq_int 103) err
     then Raise (BadCredentialsError "Specified password is invalid")
     else if existsb truthy err
     then Raise (UnknownError (json_dumps (Some 4) (VDict entries)))
     else Return tt, st).
Proof.
  intros Herr.
  unfold _validate_result, await, bind, lift, contains_str, getitem,
    contains_int, any, iterate, ret, raise.
  rewrite Herr. cbn [truthy negb]. cbv zeta.
  destruct (existsb (eq_int 100) (first :: others)); [reflexivity | ].
  destruct (existsb (eq_int 101) (first :: others)); [reflexivity | ].
  destruct (existsb (eq_int 102) (first :: others)); [reflexivity | ].
  destruct (existsb (eq_int 103) (first :: others)); [reflexivity | ].
  destruct (existsb truthy (first :: others)); reflexivity.
Qed.

(** C1: on an envelope whose [err] list holds one of 100, 101, 102, 103,
    validation raises the typed error of the first match in the order
    EmailExists, LoginExists, UserNotFound, BadCredentials; on one whose
    [err] list is non-empty, holds none of the four and holds a nonzero
    code, it raises [UnknownError] with the whole envelope, dumped with
    [indent=4], as its message. *)
Theorem validate_result_raises_first_match :
  forall (entries : list (string * value)) (err : list value) (st : state world),
    lookup "err" entries = Some (VList err) ->
    (In (VInt 100) err ->
       await (_validate_result (VDict entries)) st
       = (Raise (EmailExistsError "Specified email already exists"), st))
    /\ (~ In (VInt 100) err -> In (VInt 101) err ->
       await (_validate_result (VDict entries)) st
       = (Raise (LoginExistsError "Specified login already exists"), st))
    /\ (~ In (VInt 100) err -> ~ In (VInt 101) err -> In (VInt 102) err ->
       await (_validate_result (VDict entries)) st
       = (Raise (UserNotFoundError "Specified user not found"), st))
    /\ (~ In (VInt 100) err -> ~ In (VInt 101) err -> ~ In (VInt 102) err ->
       In (VInt 103) err ->
       await (_validate_result (VDict entries)) st
       = (Raise (BadCredentialsError "Specified password is invalid"), st))
    /\ (err <> [] ->
       ~ In (VInt 100) err -> ~ In (VInt 101) err -> ~ In (VInt 102) err ->
       ~ In (VInt 103) err ->
       (exists n : Z, n <> 0%Z /\ In (VInt n) err) ->
       await (_validate_result (VDict entries)) st
       = (Raise (UnknownError (json_dumps (Some 4) (VDict entries))), st)).
Proof.
  intros entries err st Herr.
  assert (Hyes : forall n, (1 < n)%Z -> In (VInt n) err ->
                           existsb (eq_int n) err = true)
    by (intros n Hn Hin; apply existsb_eq_int; assumption).
  assert (Hno : forall n, (1 < n)%Z -> ~ In (VInt n) err ->
                          existsb (eq_int n) err = false)
    by (intros n Hn Hin; apply existsb_eq_int_false; assumption).
  destruct err as [ | first others].
  - repeat split; intros; contradiction.
  - rewrite (validate_result_cascade _ _ _ _ Herr). cbv zeta.
    repeat split.
    + intros H100. rewrite (Hyes 100%Z) by (lia || assumption). reflexivity.
    + intros N100 H101. rewrite (Hno 100%Z), (Hyes 101%Z) by (lia || assumption).
      reflexivity.
    + intros N100 N101 H102.
      rewrite (Hno 100%Z), (Hno 101%Z), (Hyes 102%Z) by (lia || assumption).
      reflexivity.
    + intros N100 N101 N102 H103.
      rewrite (Hno 100%Z), (Hno 101%Z), (Hno 102%Z), (Hyes 103%Z)
        by (lia || assumption).
      reflexivity.
    + intros _ N100 N101 N102 N103 [n [Hn Hin]].
      rewrite (Hno 100%Z), (Hno 101%Z), (Hno 102%Z), (Hno 103%Z)
        by (lia || assumption).
      assert (Hany : existsb truthy (first :: others) = true).
      { apply existsb_exists. exists (VInt n). split; [exact Hin | ].
        simpl. apply negb_true_iff. apply Z.eqb_neq. exact Hn. }
      rewrite Hany. reflexivity.
Qed.

Lemma existsb_all_zero (f : value -> bool) (err : list value) :
  Forall (fun code => code = VInt 0) err ->
  f (VInt 0) = false -> existsb f err = false.
Proof.
  intros Hzero Hf. induction Hzero as [ | code rest Hcode _ IH].
  - reflexivity.
  - simpl in *. rewrite Hcode, Hf. exact IH.
Qed.

(** C10: an envelope whose [err] is a non-empty list of zeros passes
    validation: nothing is raised although the list is not empty. *)
Theorem validate_result_all_zero_is_success :
  forall (entries : list (string * value)) (err : list value) (st : state world),
    lookup "err" entries = Some (VList err) ->
    err <> [] ->
    Forall (fun code => code = VInt 0) err ->
    await (_validate_result (VDict entries)) st = (Return tt, st).
Proof.
  intros entries err st Herr Hne Hzero.
  destruct err as [ | first others]; [contradiction | ].
  rewrite (validate_result_cascade _ _ _ _ Herr). cbv zeta.
  rewrite !(existsb_all_zero _ _ Hzero) by reflexivity. reflexivity.
Qed.

(** The body of [_validate_result] on an envelope without [err], or with
    an empty [err] list. *)
Lemma validate_result_returns entries st :
  lookup "err" entries = None \/ lookup "err" entries = Some (VList []) ->
  await (_validate_result (VDict entries)) st = (Return tt, st).
Proof.
  intros [Herr | Herr]; cbv beta delta [await _validate_result]; cbv beta iota;
    unfold bind, lift, contains_str, getitem; rewrite Herr; reflexivity.
Qed.

(** ** [login] *)

(** What [login] does once the network has answered with a JSON body: the
    envelope is not validated, the token is read out of it. *)
Lemma login_run login_ password result st :
  fst (dispatch (login_request login_ password) (net st)) = json_response result ->
  await (login login_ password) st =
    match getitem result "data" with
    | Raise e => (Raise e, after (login_request login_ password) st)
    | Return d =>
        match getitem d "access_token" with
        | Raise e => (Raise e, after (login_request login_ password) st)
        | Return tok =>
            (Return true,
             mkState (mkClient tok)
                     (net (after (login_request login_ password) st))
                     (sent (after (login_request login_ password) st)))
        end
    end.
Proof.
  intros Hreply. unfold login. cbn [await]. run.
  destruct (getitem result "data") as [d | e]; cbn [lift].
  - run. destruct (getitem d "access_token") as [tok | e]; cbn [lift].
    + run. reflexivity.
    + erewrite bind_raise by reflexivity. reflexivity.
  - erewrite bind_raise by reflexivity. reflexivity.
Qed.

(** C2: an envelope whose [err] is absent or the empty list passes
    validation, and the caller goes on to read [data] out of it: [login]
    returns [True] with the token found there, and fails with [KeyError]
    where there is no [data] to read. *)
Theorem validate_result_empty_or_absent_is_success :
  forall (entries : list (string * value)) (st : state world),
    lookup "err" entries = None \/ lookup "err" entries = Some (VList []) ->
    await (_validate_result (VDict entries)) st = (Return tt, st)
    /\ (forall login_ password d tok,
          fst (dispatch (login_request login_ password) (net st))
            = json_response (VDict entries) ->
          lookup "data" entries = Some d ->
          getitem d "access_token" = Return tok ->
          fst (await (login login_ password) st) = Return true
          /\ _token (self (snd (await (login login_ password) st))) = tok)
    /\ (forall login_ password,
          fst (dispatch (login_request login_ password) (net st))
            = json_response (VDict entries) ->
          lookup "data" entries = None ->
          fst (await (login login_ password) st) = Raise (KeyError "data")).
Proof.
  intros entries st Herr. split; [apply validate_result_returns; exact Herr | ].
  split.
  - intros login_ password d tok Hreply Hdata Htok.
    rewrite (login_run _ _ _ _ Hreply). simpl. rewrite Hdata, Htok.
    split; reflexivity.
  - intros login_ password Hreply Hdata.
    rewrite (login_run _ _ _ _ Hreply). simpl. rewrite Hdata. reflexivity.
Qed.

Lemma getitem_raises_no_api_error c key e :
  getitem c key = Raise e -> api_error e = false.
Proof.
  destruct c; simpl; intros H; try (injection H as <-; reflexivity).
  destruct (lookup key entries); [discriminate | ].
  injection H as <-. reflexivity.
Qed.

(** [login] lets no API error out: [_validate_result] is called, but the
    coroutine it returns is never awaited. *)
Lemma login_raises_no_api_error login_ password st e :
  fst (await (login login_ password) st) = Raise e -> api_error e = false.
Proof.
  unfold login. cbn [await]. walk; cbn [fst ret]; intros H;
    try discriminate H; injection H as <-;
    solve [ reflexivity | eapply getitem_raises_no_api_error; eassumption ].
Qed.

(** ** What each operation sends *)

Lemma like_post_sends post_id st :
  sent (snd (await (like_post post_id) st))
  = (sent st ++ [like_post_request (_token (self st)) post_id])%list.
Proof. unfold like_post. cbn [await]. walk; reflexivity. Qed.

Lemma complaint_sends post_id complaint_type text st :
  sent (snd (await (complaint post_id complaint_type text) st))
  = (sent st
     ++ [complaint_request (_token (self st)) post_id complaint_type text])%list.
Proof. unfold complaint. cbn [await]. walk; reflexivity. Qed.

(** The token [login] stores is the one the next operation sends. *)
Lemma login_token_attached login_ password result d tok post_id st :
  fst (dispatch (login_request login_ password) (net st)) = json_response result ->
  getitem result "data" = Return d ->
  getitem d "access_token" = Return tok ->
  let st1 := snd (await (login login_ password) st) in
  fst (await (login login_ password) st) = Return true
  /\ _token (self st1) = tok
  /\ sent (snd (await (like_post post_id) st1))
     = (sent st1 ++ [like_post_request tok post_id])%list.
Proof.
  intros Hreply Hdata Htok st1. subst st1.
  rewrite like_post_sends. rewrite (login_run _ _ _ _ Hreply), Hdata, Htok.
  repeat split; reflexivity.
Qed.

(** C4: [login("alice", "secret")] answered with
    [{"err": [], "data": {"access_token": "tok-abc"}}] returns [True] and
    leaves the client's token at ["tok-abc"]; [like_post(42)] run next hands
    the HTTP library a POST to [/posts/42/like] whose [access-token]
    header is that token. *)
Theorem login_then_like_post_scenario :
  forall (st : state world),
    fst (dispatch (login_request (VStr "alice") (VStr "secret")) (net st))
      = json_response
          (VDict [("err", VList []);
                  ("data", VDict [("access_token", VStr "tok-abc")])]) ->
    let st1 := snd (await (login (VStr "alice") (VStr "secret")) st) in
    fst (await (login (VStr "alice") (VStr "secret")) st) = Return true
    /\ _token (self st1) = VStr "tok-abc"
    /\ sent (snd (await (like_post (VInt 42)) st1))
       = (sent st1
          ++ [mkRequest requests_post
                "https://api.grustnogram.ru/posts/42/like"
                [("accept", VStr "application/json");
                 ("content-type", VStr "application/x-www-form-urlencoded");
                 ("user-agent", VStr "Python SDK");
                 ("access-token", VStr "tok-abc")]
                None])%list.
Proof.
  intros st Hreply.
  exact (login_token_attached _ _ _ _ _ (VInt 42) st Hreply eq_refl eq_refl).
Qed.

(** C8: [complaint(post_id, 2)] with no text hands the HTTP library one
    POST to [/posts/{post_id}/complaint] whose body is the JSON object
    with [type] 2 and [text] null. *)
Theorem complaint_without_text_body :
  forall (post_id : value) (st : state world),
    sent (snd (await (complaint post_id (VInt 2) default_text) st))
    = (sent st
       ++ [mkRequest requests_post
             ("https://api.grustnogram.ru/posts/" ++ py_str post_id
                ++ "/complaint")%string
             [("accept", VStr "application/json");
              ("content-type", VStr "application/x-www-form-urlencoded");
              ("user-agent", VStr "Python SDK");
              ("access-token", _token (self st))]
             (Some (list_byte_of_string
                      ("{" ++ quoted "type" ++ ": 2, "
                           ++ quoted "text" ++ ": null}")%string))])%list.
Proof. intros post_id st. rewrite complaint_sends. reflexivity. Qed.

(** ** [register] *)

(** With the first two steps answered, the flow reaches its third
    request. *)
Lemma register_issues_three nickname email password phone code_handler
    result1 d phone_key result2 st :
  let req1 := users_request nickname email password in
  let req2 := callme_request phone_key phone in
  fst (dispatch req1 (net st)) = json_response result1 ->
  getitem result1 "data" = Return d ->
  getitem d "phone_key" = Return phone_key ->
  fst (dispatch req2 (net (after req1 st))) = json_response result2 ->
  sent (snd (await (register nickname email password phone code_handler) st))
  = (sent st ++ [req1; req2; phoneactivate_request (code_handler tt) phone])%list.
Proof.
  intros req1 req2 H1 Hdata Hkey H2. subst req1 req2.
  unfold register. cbn [await]. cbv zeta.
  rewrite bind_run_sync.
  fold (users_request nickname email password). rewrite H1.
  unfold json_response. rewrite bind_Response_json. cbn [body].
  rewrite bind_expr_stmt, bind_lift, Hdata, bind_lift, Hkey, bind_run_sync.
  fold (callme_request phone_key phone). rewrite H2.
  unfold json_response. rewrite bind_Response_json. cbn [body].
  rewrite bind_expr_stmt.
  walk; cbn [snd sent after ret]; rewrite <- !app_assoc; reflexivity.
Qed.

(** C7: when the code provider returns ["1234"], the third request
    [register] hands the HTTP library is the POST to [/phoneactivate], and
    the JSON object in its body has ["1234"] under [code]. *)
Theorem register_third_request_carries_code :
  forall (nickname email password phone : value) (code_handler : unit -> value)
         (st : state world) (req1 req2 req3 : request) (more : list request),
    code_handler tt = VStr "1234" ->
    sent (snd (await (register nickname email password phone code_handler) st))
      = (sent st ++ req1 :: req2 :: req3 :: more)%list ->
    req3 = mkRequest requests_post "https://api.grustnogram.ru/phoneactivate"
             [("accept", VStr "application/json");
              ("content-type", VStr "application/x-www-form-urlencoded");
              ("user-agent", VStr "Python SDK")]
             (Some (encode (json_dumps None
                (VDict [("code", VStr "1234"); ("phone", phone)])))).
Proof.
  intros nickname email password phone code_handler st req1 req2 req3 more
    Hcode.
  unfold register. cbn [await]. cbv zeta. rewrite Hcode.
  walk; cbn [snd sent after ret]; rewrite <- ?app_assoc; intros H;
    apply app_inv_head in H; cbn [app] in H;
    first [ discriminate H | injection H as _ _ <- _; reflexivity ].
Qed.

(** ** [get_comments] *)

Lemma comment_of_object o st :
  comment_object o = true ->
  exists c, comment_of o st = (Return c, st) /\ field_for_field o c.
Proof.
  destruct o as [ | | | | | entries]; try discriminate. unfold comment_object.
  destruct (lookup "id" entries) as [uid | ] eqn:Hid; [ | discriminate].
  destruct (lookup "nickname" entries) as [nickname | ] eqn:Hnick;
    [ | discriminate].
  destruct (lookup "comment" entries) as [text | ] eqn:Htext; [ | discriminate].
  destruct (lookup "created_at" entries) as [created_at | ] eqn:Hcreated;
    [ | discriminate].
  intros _. exists (Comment__init__ uid nickname text created_at). split.
  - unfold comment_of, bind, lift, getitem.
    rewrite Hid, Hnick, Htext, Hcreated. reflexivity.
  - unfold field_for_field, getitem.
    rewrite Hid, Hnick, Htext, Hcreated. repeat split; reflexivity.
Qed.

Lemma comprehension_objects objs st :
  forallb comment_object objs = true ->
  exists cs, comprehension comment_of objs st = (Return cs, st)
             /\ Forall2 field_for_field objs cs.
Proof.
  induction objs as [ | o rest IH]; intros Hobjs.
  - exists []. split; [reflexivity | constructor].
  - simpl in Hobjs. apply andb_true_iff in Hobjs. destruct Hobjs as [Ho Hrest].
    destruct (comment_of_object o st Ho) as [c [Hc Hfields]].
    destruct (IH Hrest) as [cs [Hcs Hall]].
    exists (c :: cs). split.
    + cbn [comprehension]. run. reflexivity.
    + constructor; assumption.
Qed.

(** Whatever the items are, a comprehension that returns has built one
    [Comment] per item, in order, from the item's own entries. *)
Lemma comment_of_returns o st c st' :
  comment_of o st = (Return c, st') -> field_for_field o c.
Proof.
  unfold comment_of. walk; cbn [ret]; intros H; try discriminate H.
  injection H as <- _. repeat split; assumption.
Qed.

Lemma comprehension_returns objs st cs st' :
  comprehension comment_of objs st = (Return cs, st') ->
  Forall2 field_for_field objs cs.
Proof.
  revert st cs st'. induction objs as [ | o rest IH]; intros st cs st'.
  - cbn [comprehension ret]. intros H. injection H as <- _. constructor.
  - cbn [comprehension]. unfold bind at 1.
    destruct (comment_of o st) as [[c | e] st1] eqn:Hc; [ | discriminate].
    unfold bind at 1.
    destruct (comprehension comment_of rest st1) as [[cs' | e] st2] eqn:Hcs;
      [ | discriminate].
    cbn [ret]. intros H. injection H as <- _.
    constructor; [eapply comment_of_returns; eassumption | eapply IH; eassumption].
Qed.

Lemma get_comments_run post_id limit offset result st :
  let req := get_comments_request (_token (self st)) post_id limit offset in
  fst (dispatch req (net st)) = json_response result ->
  await (get_comments post_id limit offset) st =
    match getitem result "data" with
    | Raise e => (Raise e, after req st)
    | Return d =>
        match iterate d with
        | Raise e => (Raise e, after req st)
        | Return items => comprehension comment_of items (after req st)
        end
    end.
Proof.
  intros req Hreply. subst req. unfold get_comments. cbn [await].
  rewrite bind_get_token, bind_run_sync.
  fold (get_comments_request (_token (self st)) post_id limit offset).
  rewrite Hreply. unfold json_response. rewrite bind_Response_json. cbn [body].
  rewrite bind_expr_stmt, bind_lift.
  destruct (getitem result "data") as [d | e]; [ | reflexivity].
  rewrite bind_lift. destruct (iterate d); reflexivity.
Qed.

(** C5: when the response's [data] is a list of [n] comment objects,
    [get_comments] returns [n] comments, in the order of the list, each
    holding the [id], [nickname], [comment] and [created_at] entries of
    the object at its position. *)
Theorem get_comments_maps_data_in_order :
  forall (post_id limit offset result : value) (objs : list value)
         (st : state world),
    fst (dispatch (get_comments_request (_token (self st)) post_id limit offset)
           (net st)) = json_response result ->
    getitem result "data" = Return (VList objs) ->
    forallb comment_object objs = true ->
    exists cs : list Comment,
      fst (await (get_comments post_id limit offset) st) = Return cs
      /\ List.length cs = List.length objs
      /\ Forall2 field_for_field objs cs.
Proof.
  intros post_id limit offset result objs st Hreply Hdata Hobjs.
  rewrite (get_comments_run _ _ _ _ _ Hreply), Hdata. cbn [iterate].
  destruct (comprehension_objects objs
              (after (get_comments_request (_token (self st)) post_id limit offset)
                     st) Hobjs) as [cs [Hcs Hall]].
  exists cs. rewrite Hcs. repeat split.
  - symmetry. eapply Forall2_length. exact Hall.
  - exact Hall.
Qed.

(** A call of [get_comments] that returns, whatever the response was, has
    built its comments field for field from the items of [data]. *)
Lemma get_comments_returns post_id limit offset result objs cs st :
  fst (dispatch (get_comments_request (_token (self st)) post_id limit offset)
         (net st)) = json_response result ->
  getitem result "data" = Return (VList objs) ->
  fst (await (get_comments post_id limit offset) st) = Return cs ->
  Forall2 field_for_field objs cs.
Proof.
  intros Hreply Hdata. rewrite (get_comments_run _ _ _ _ _ Hreply), Hdata.
  cbn [iterate]. intros H.
  destruct (comprehension comment_of objs
              (after (get_comments_request (_token (self st)) post_id limit offset)
                     st)) as [o st'] eqn:Hrun.
  cbn [fst] in H. subst o. eapply comprehension_returns. exact Hrun.
Qed.

(** ** The convenience methods of the entities *)

(** An entity as its constructor builds it has no [_client]: each of its
    methods raises [AttributeError] before anything is sent. *)
Lemma unbound_comment_methods_raise uid nickname text created_at st :
  let c := Comment__init__ uid nickname text created_at in
  await (Comment_delete c) st = (Raise (AttributeError "_client"), st)
  /\ await (Comment_like c) st = (Raise (AttributeError "_client"), st)
  /\ await (Comment_dislike c) st = (Raise (AttributeError "_client"), st).
Proof. repeat split; reflexivity. Qed.

Lemma unbound_post_methods_raise uid url_ media text user likes_count
    comments_count created_at reply_text st :
  let p := Post__init__ uid url_ media text user likes_count comments_count
             created_at in
  await (Post_delete p) st = (Raise (AttributeError "_client"), st)
  /\ await (Post_like p) st = (Raise (AttributeError "_client"), st)
  /\ await (Post_dislike p) st = (Raise (AttributeError "_client"), st)
  /\ await (Post_comment p reply_text) st = (Raise (AttributeError "_client"), st).
Proof. repeat split; reflexivity. Qed.

(** The comments the client returns are built by the constructor alone. *)
Lemma comment_of_unbound o st c st' :
  comment_of o st = (Return c, st') -> Comment__client c = None.
Proof.
  unfold comment_of. walk; cbn [ret]; intros H; try discriminate H.
  injection H as <- _. reflexivity.
Qed.

Lemma comment_post_returns_unbound post_id text st c :
  fst (await (comment_post post_id text) st) = Return c ->
  Comment__client c = None.
Proof.
  unfold comment_post. cbn [await]. walk; cbn [fst ret]; intros H;
    try discriminate H.
  injection H as <-. reflexivity.
Qed.

Lemma comprehension_unbound objs st cs st' :
  comprehension comment_of objs st = (Return cs, st') ->
  Forall (fun c => Comment__client c = None) cs.
Proof.
  revert st cs st'. induction objs as [ | o rest IH]; intros st cs st'.
  - cbn [comprehension ret]. intros H. injection H as <- _. constructor.
  - cbn [comprehension]. unfold bind at 1.
    destruct (comment_of o st) as [[c | e] st1] eqn:Hc; [ | discriminate].
    unfold bind at 1.
    destruct (comprehension comment_of rest st1) as [[cs' | e] st2] eqn:Hcs;
      [ | discriminate].
    cbn [ret]. intros H. injection H as <- _.
    constructor; [eapply comment_of_unbound; eassumption | eapply IH; eassumption].
Qed.

Lemma get_comments_returns_unbound post_id limit offset st cs :
  fst (await (get_comments post_id limit offset) st) = Return cs ->
  Forall (fun c => Comment__client c = None) cs.
Proof.
  unfold get_comments. cbn [await]. walk; cbn [fst]; intros H;
    try discriminate H.
  match goal with
  | H : fst (comprehension comment_of ?l ?s) = _ |- _ =>
      destruct (comprehension comment_of l s) as [o st'] eqn:Hrun
  end.
  cbn [fst] in H. subst o. eapply comprehension_unbound. exact Hrun.
Qed.

(** Once a caller has bound [_client] on a comment by hand, [delete] does
    send the DELETE for the comment's own [uid]. *)
Lemma bound_comment_delete_sends c st :
  Comment__client c = Some the_client ->
  sent (snd (await (Comment_delete c) st))
  = (sent st ++ [delete_comment_request (_token (self st)) (Comment_uid c)])%list.
Proof.
  intros Hbound. unfold Comment_delete, delete_comment. cbn [await].
  rewrite bind_getattr, Hbound.
  unfold bind at 1. rewrite bind_get_token.
  walk; reflexivity.
Qed.

(** ** Validation beyond lists of codes *)

(** X1: an envelope whose [err] is any false value, not only the empty
    list ([0], [False], [None], the empty string or dictionary), passes
    validation. *)
Theorem validate_result_falsy_err_is_success :
  forall (entries : list (string * value)) (err : value) (st : state world),
    lookup "err" entries = Some err ->
    truthy err = false ->
    await (_validate_result (VDict entries)) st = (Return tt, st).
Proof.
  intros entries err st Herr Hfalse.
  unfold _validate_result, await, bind, lift, contains_str, getitem.
  rewrite Herr. cbn [negb ret]. rewrite Hfalse. reflexivity.
Qed.

(** X2: an envelope whose [err] is a bare code instead of a list ([True],
    a nonzero integer, a non-empty string) makes validation raise
    [TypeError], whatever the code: the membership test has nothing to
    search. *)
Theorem validate_result_scalar_err_raises_TypeError :
  forall (entries : list (string * value)) (st : state world),
    (lookup "err" entries = Some (VBool true) ->
       await (_validate_result (VDict entries)) st = (Raise TypeError, st))
    /\ (forall n : Z, n <> 0%Z -> lookup "err" entries = Some (VInt n) ->
       await (_validate_result (VDict entries)) st = (Raise TypeError, st))
    /\ (forall s : string, s <> EmptyString ->
       lookup "err" entries = Some (VStr s) ->
       await (_validate_result (VDict entries)) st = (Raise TypeError, st)).
Proof.
  intros entries st. repeat split.
  - intros Herr.
    unfold _validate_result, await, bind, lift, contains_str, getitem.
    rewrite Herr. reflexivity.
  - intros n Hn Herr.
    unfold _validate_result, await, bind, lift, contains_str, getitem.
    rewrite Herr. cbn [negb ret truthy].
    apply Z.eqb_neq in Hn. rewrite Hn. reflexivity.
  - intros s Hs Herr.
    unfold _validate_result, await, bind, lift, contains_str, getitem.
    rewrite Herr. cbn [negb ret truthy].
    apply String.eqb_neq in Hs. rewrite Hs. reflexivity.
Qed.

(** X3: when [err] is a dictionary, the codes are looked for among its
    keys, which are strings: none of the four typed errors is raised, and
    a dictionary with a non-empty key gives [UnknownError] with the dumped
    envelope. *)
Theorem validate_result_dict_err_raises_UnknownError :
  forall (entries codes : list (string * value)) (key : string) (v : value)
         (st : state world),
    lookup "err" entries = Some (VDict codes) ->
    In (key, v) codes ->
    key <> EmptyString ->
    await (_validate_result (VDict entries)) st
    = (Raise (UnknownError (json_dumps (Some 4) (VDict entries))), st).
Proof.
  intros entries codes key v st Herr Hin Hkey.
  assert (Hany : existsb truthy (map (fun kv => VStr (fst kv)) codes) = true).
  { apply existsb_exists. exists (VStr key). split.
    - apply in_map_iff. exists (key, v). split; [reflexivity | exact Hin].
    - simpl. apply negb_true_iff. apply String.eqb_neq. exact Hkey. }
  destruct codes as [ | entry others]; [destruct Hin | ].
  unfold _validate_result, await, bind, lift, contains_str, getitem,
    contains_int, any, iterate, ret, raise.
  rewrite Herr. cbn [truthy negb]. rewrite Hany. reflexivity.
Qed.

(** X4: an envelope that is no dictionary. A list passes validation
    unless the string ["err"] is one of its items, a string unless it
    contains ["err"]; in both excepted cases, and for [None], a boolean or
    an integer, validation raises [TypeError]. *)
Theorem validate_result_non_dict_envelope :
  forall (st : state world),
    (forall items : list value, existsb (eq_str "err") items = false ->
       await (_validate_result (VList items)) st = (Return tt, st))
    /\ (forall items : list value, existsb (eq_str "err") items = true ->
       await (_validate_result (VList items)) st = (Raise TypeError, st))
    /\ (forall s : string, is_substring "err" s = false ->
       await (_validate_result (VStr s)) st = (Return tt, st))
    /\ (forall s : string, is_substring "err" s = true ->
       await (_validate_result (VStr s)) st = (Raise TypeError, st))
    /\ await (_validate_result VNone) st = (Raise TypeError, st)
    /\ (forall b : bool,
       await (_validate_result (VBool b)) st = (Raise TypeError, st))
    /\ (forall n : Z,
       await (_validate_result (VInt n)) st = (Raise TypeError, st)).
Proof.
  intros st. repeat split; intros;
    unfold _validate_result, await, bind, lift, contains_str, getitem;
    try match goal with H : _ = _ |- _ => rewrite H end; reflexivity.
Qed.

Lemma keeps_state_ret {A} (a : A) : keeps_state (ret a).
Proof. intros st. reflexivity. Qed.

Lemma keeps_state_raise {A} (e : exn) : keeps_state (@raise A e).
Proof. intros st. reflexivity. Qed.

Lemma keeps_state_lift {A} (o : outcome A) : keeps_state (lift o).
Proof. destruct o; intros st; reflexivity. Qed.

Lemma keeps_state_bind {A B} (m : M A) (k : A -> M B) :
  keeps_state m -> (forall a, keeps_state (k a)) -> keeps_state (bind m k).
Proof.
  intros Hm Hk st. unfold bind.
  specialize (Hm st). destruct (m st) as [[a | e] st1]; simpl in *.
  - rewrite Hk. exact Hm.
  - exact Hm.
Qed.

Lemma keeps_state_if {A} (b : bool) (m1 m2 : M A) :
  keeps_state m1 -> keeps_state m2 -> keeps_state (if b then m1 else m2).
Proof. destruct b; auto. Qed.

(** X5: validation is an inspection only: whatever the value it is given
    and whatever it raises, it sends no request and leaves the client and
    the network as they were. *)
Theorem validate_result_keeps_state :
  forall (result : value) (st : state world),
    snd (await (_validate_result result) st) = st.
Proof.
  intros result.
  change (keeps_state (await (_validate_result result))).
  unfold _validate_result. cbn [await].
  repeat first
    [ apply keeps_state_ret | apply keeps_state_raise | apply keeps_state_lift
    | apply keeps_state_if
    | apply keeps_state_bind; [ | intros ] ].
Qed.

(** ** What the operations do with the envelope, and with the transport *)

Ltac spell_out :=
  unfold login_request, users_request, callme_request, phoneactivate_request,
    like_post_request, dislike_post_request, like_comment_request,
    dislike_comment_request, comment_post_request, delete_comment_request,
    get_comments_request, complaint_request, delete_post_request,
    auth_headers in *.

(** Runs an operation up to the answer [H] gives for its request. *)
Ltac answered H :=
  rewrite ?bind_get_token; rewrite bind_run_sync; rewrite H;
  unfold json_response; rewrite ?bind_Response_json; cbn [body];
  rewrite ?bind_expr_stmt.

(** X6: the seven operations that return a flag return [True] as soon as
    the response body is JSON, whatever the envelope says: the error codes
    in it are never looked at. *)
Theorem flag_operations_return_True_on_any_json :
  forall (post_id comment_id complaint_type text result : value)
         (st : state world),
    let tok := _token (self st) in
    (fst (dispatch (like_post_request tok post_id) (net st))
       = json_response result ->
     fst (await (like_post post_id) st) = Return true)
    /\ (fst (dispatch (dislike_post_request tok post_id) (net st))
          = json_response result ->
        fst (await (dislike_post post_id) st) = Return true)
    /\ (fst (dispatch (like_comment_request tok comment_id) (net st))
          = json_response result ->
        fst (await (like_comment comment_id) st) = Return true)
    /\ (fst (dispatch (dislike_comment_request tok comment_id) (net st))
          = json_response result ->
        fst (await (dislike_comment comment_id) st) = Return true)
    /\ (fst (dispatch (delete_comment_request tok comment_id) (net st))
          = json_response result ->
        fst (await (delete_comment comment_id) st) = Return true)
    /\ (fst (dispatch (complaint_request tok post_id complaint_type text) (net st))
          = json_response result ->
        fst (await (complaint post_id complaint_type text) st) = Return true)
    /\ (fst (dispatch (delete_post_request tok post_id) (net st))
          = json_response result ->
        fst (await (delete_post post_id) st) = Return true).
Proof.
  intros post_id comment_id complaint_type text result st tok. subst tok.
  repeat split; intros Hreply; spell_out;
    unfold like_post, dislike_post, like_comment, dislike_comment,
      delete_comment, complaint, delete_post; cbn [await];
    answered Hreply; reflexivity.
Qed.

Lemma no_api_error_ret {A} (a : A) : no_api_error (ret a).
Proof. intros st e H. discriminate H. Qed.

Lemma no_api_error_lift_getitem c key : no_api_error (lift (getitem c key)).
Proof.
  intros st e. destruct (getitem c key) as [v | e'] eqn:Hitem; cbn [lift].
  - intros H. discriminate H.
  - intros H. injection H as <-. eapply getitem_raises_no_api_error. exact Hitem.
Qed.

Lemma no_api_error_lift_iterate c : no_api_error (lift (iterate c)).
Proof.
  intros st e. destruct c; cbn; intros H;
    solve [discriminate H | injection H as <-; reflexivity].
Qed.

Lemma no_api_error_bind {A B} (m : M A) (k : A -> M B) :
  no_api_error m -> (forall a, no_api_error (k a)) -> no_api_error (bind m k).
Proof.
  intros Hm Hk st e. unfold bind.
  specialize (Hm st). destruct (m st) as [[a | e'] st1]; cbn [fst] in *.
  - apply Hk.
  - intros H. injection H as <-. apply Hm. reflexivity.
Qed.

Lemma no_api_error_expr_stmt {A} (v : A) : no_api_error (expr_stmt v).
Proof. intros st e H. discriminate H. Qed.

Lemma no_api_error_get_token : no_api_error get_token.
Proof. intros st e H. discriminate H. Qed.

Lemma no_api_error_set_token v : no_api_error (set_token v).
Proof. intros st e H. discriminate H. Qed.

Lemma no_api_error_run_sync f u h d : no_api_error (await (run_sync f u h d)).
Proof.
  intros st e. cbn [await run_sync].
  destruct (dispatch (mkRequest f u h d) (net st)) as [[ | resp] w];
    cbn [fst]; intros H; [injection H as <-; reflexivity | discriminate H].
Qed.

Lemma no_api_error_Response_json r : no_api_error (Response_json r).
Proof.
  intros st e. unfold Response_json. destruct (body r); cbn; intros H;
    [discriminate H | injection H as <-; reflexivity].
Qed.

Lemma no_api_error_comprehension {A} (f : value -> M A) (items : list value) :
  (forall x, no_api_error (f x)) -> no_api_error (comprehension f items).
Proof.
  intros Hf. induction items as [ | x rest IH]; cbn [comprehension].
  - apply no_api_error_ret.
  - apply no_api_error_bind; [apply Hf | intros a].
    apply no_api_error_bind; [exact IH | intros others].
    apply no_api_error_ret.
Qed.

Ltac quiet :=
  repeat first
    [ apply no_api_error_ret | apply no_api_error_lift_getitem
    | apply no_api_error_lift_iterate | apply no_api_error_expr_stmt
    | apply no_api_error_get_token | apply no_api_error_set_token
    | apply no_api_error_run_sync | apply no_api_error_Response_json
    | apply no_api_error_comprehension; intros
    | apply no_api_error_bind; [ | intros ] ].

(** X7: no operation of the client ever raises one of the five errors of
    [errors.py]: whatever the server answers, what a caller can catch is a
    transport failure, a body that is not JSON, a [KeyError] or a
    [TypeError]. *)
Theorem no_operation_raises_api_error :
  forall (login_ password nickname email phone post_id comment_id text
            complaint_type limit offset : value)
         (code_handler : unit -> value) (st : state world) (e : exn),
    (fst (await (login login_ password) st) = Raise e -> api_error e = false)
    /\ (fst (await (register nickname email password phone code_handler) st)
          = Raise e -> api_error e = false)
    /\ (fst (await (like_post post_id) st) = Raise e -> api_error e = false)
    /\ (fst (await (dislike_post post_id) st) = Raise e -> api_error e = false)
    /\ (fst (await (like_comment comment_id) st) = Raise e
        -> api_error e = false)
    /\ (fst (await (dislike_comment comment_id) st) = Raise e
        -> api_error e = false)
    /\ (fst (await (comment_post post_id text) st) = Raise e
        -> api_error e = false)
    /\ (fst (await (delete_comment comment_id) st) = Raise e
        -> api_error e = false)
    /\ (fst (await (get_comments post_id limit offset) st) = Raise e
        -> api_error e = false)
    /\ (fst (await (complaint post_id complaint_type text) st) = Raise e
        -> api_error e = false)
    /\ (fst (await (delete_post post_id) st) = Raise e -> api_error e = false).
Proof.
  intros. repeat split;
    match goal with
    | |- fst (?m st) = Raise e -> _ =>
        assert (Hquiet : no_api_error m); [ | exact (Hquiet st e)]
    end;
    unfold login, register, like_post, dislike_post, like_comment,
      dislike_comment, comment_post, delete_comment, get_comments, complaint,
      delete_post, comment_of; cbn [await]; cbv zeta; quiet.
Qed.

Lemma keeps_state_comment_of x : keeps_state (comment_of x).
Proof.
  unfold comment_of.
  repeat first
    [ apply keeps_state_ret | apply keeps_state_lift
    | apply keeps_state_bind; [ | intros ] ].
Qed.

Lemma keeps_state_comprehension items :
  keeps_state (comprehension comment_of items).
Proof.
  induction items as [ | x rest IH]; cbn [comprehension].
  - apply keeps_state_ret.
  - apply keeps_state_bind; [apply keeps_state_comment_of | intros a].
    apply keeps_state_bind; [exact IH | intros others].
    apply keeps_state_ret.
Qed.

(** X8: each of the nine authenticated operations makes exactly one call
    of the HTTP library, the one spelled out for it, with the client's
    current token in the [access-token] header, and changes nothing else:
    this holds whether the network answers or not and whether the call
    then returns or raises. *)
Theorem operations_make_exactly_one_call :
  forall (post_id comment_id text complaint_type limit offset : value)
         (st : state world),
    let tok := _token (self st) in
    snd (await (like_post post_id) st) = after (like_post_request tok post_id) st
    /\ snd (await (dislike_post post_id) st)
       = after (dislike_post_request tok post_id) st
    /\ snd (await (like_comment comment_id) st)
       = after (like_comment_request tok comment_id) st
    /\ snd (await (dislike_comment comment_id) st)
       = after (dislike_comment_request tok comment_id) st
    /\ snd (await (comment_post post_id text) st)
       = after (comment_post_request tok post_id text) st
    /\ snd (await (delete_comment comment_id) st)
       = after (delete_comment_request tok comment_id) st
    /\ snd (await (get_comments post_id limit offset) st)
       = after (get_comments_request tok post_id limit offset) st
    /\ snd (await (complaint post_id complaint_type text) st)
       = after (complaint_request tok post_id complaint_type text) st
    /\ snd (await (delete_post post_id) st)
       = after (delete_post_request tok post_id) st.
Proof.
  intros post_id comment_id text complaint_type limit offset st tok. subst tok.
  repeat split; spell_out;
    unfold like_post, dislike_post, like_comment, dislike_comment, comment_post,
      delete_comment, get_comments, complaint, delete_post; cbn [await];
    walk; try reflexivity.
  apply keeps_state_comprehension.
Qed.

Lemma surfaces_first_call {A} f u h d (k : Response -> M A) :
  (forall st, fst (k (mkResponse None) st) = Raise JSONDecodeError) ->
  forall st,
    (fst (dispatch (mkRequest f u h d) (net st)) = Unreachable ->
       fst (bind (await (run_sync f u h d)) k st) = Raise RequestException)
    /\ (fst (dispatch (mkRequest f u h d) (net st)) = Answered (mkResponse None) ->
       fst (bind (await (run_sync f u h d)) k st) = Raise JSONDecodeError).
Proof.
  intros Hk st. rewrite bind_run_sync. split; intros H; rewrite H.
  - reflexivity.
  - apply Hk.
Qed.

(** X9: a failure of the transport comes out of every operation as it is:
    [RequestException] when the request got no response, and
    [JSONDecodeError] when the response body is not JSON ([register] at
    its first step). *)
Theorem transport_failures_surface :
  forall (login_ password nickname email phone post_id comment_id text
            complaint_type limit offset : value)
         (code_handler : unit -> value),
    surfaces_transport_failure (fun _ => login_request login_ password)
      (await (login login_ password))
    /\ surfaces_transport_failure (fun _ => users_request nickname email password)
         (await (register nickname email password phone code_handler))
    /\ surfaces_transport_failure (fun tok => like_post_request tok post_id)
         (await (like_post post_id))
    /\ surfaces_transport_failure (fun tok => dislike_post_request tok post_id)
         (await (dislike_post post_id))
    /\ surfaces_transport_failure (fun tok => like_comment_request tok comment_id)
         (await (like_comment comment_id))
    /\ surfaces_transport_failure
         (fun tok => dislike_comment_request tok comment_id)
         (await (dislike_comment comment_id))
    /\ surfaces_transport_failure
         (fun tok => comment_post_request tok post_id text)
         (await (comment_post post_id text))
    /\ surfaces_transport_failure
         (fun tok => delete_comment_request tok comment_id)
         (await (delete_comment comment_id))
    /\ surfaces_transport_failure
         (fun tok => get_comments_request tok post_id limit offset)
         (await (get_comments post_id limit offset))
    /\ surfaces_transport_failure
         (fun tok => complaint_request tok post_id complaint_type text)
         (await (complaint post_id complaint_type text))
    /\ surfaces_transport_failure (fun tok => delete_post_request tok post_id)
         (await (delete_post post_id)).
Proof.
  intros. repeat apply conj; intros st; spell_out;
    unfold login, register, like_post, dislike_post, like_comment,
      dislike_comment, comment_post, delete_comment, get_comments, complaint,
      delete_post; cbn [await]; rewrite ?bind_get_token;
    apply surfaces_first_call;
    intros st'; rewrite bind_Response_json; reflexivity.
Qed.

(** ** The session token under [login] and [register] *)

(** X10: [login] makes exactly one call, which carries no [access-token]
    header, and stores a token only when it returns: a call that raises,
    for whatever reason, leaves the token the client had. *)
Theorem login_stores_token_only_on_success :
  forall (login_ password : value) (st : state world),
    sent (snd (await (login login_ password) st))
    = (sent st ++ [login_request login_ password])%list
    /\ lookup "access-token" (headers (login_request login_ password)) = None
    /\ (forall e : exn,
          fst (await (login login_ password) st) = Raise e ->
          _token (self (snd (await (login login_ password) st)))
          = _token (self st)).
Proof.
  intros login_ password st. spell_out. unfold login. cbn [await].
  repeat split; try intros e; walk; cbn [fst snd ret];
    solve [ reflexivity | intros H; discriminate H ].
Qed.

(** X11: [register] makes one, two or three calls, all of them POSTs
    without an [access-token] header, and like [login] stores a token only
    when it returns. *)
Theorem register_stores_token_only_on_success :
  forall (nickname email password phone : value) (code_handler : unit -> value)
         (st : state world),
    let run := await (register nickname email password phone code_handler) st in
    (exists calls : list request,
       sent (snd run) = (sent st ++ calls)%list
       /\ (1 <= List.length calls <= 3)%nat
       /\ Forall (fun call => func call = requests_post
                              /\ lookup "access-token" (headers call) = None)
                 calls)
    /\ (forall e : exn,
          fst run = Raise e -> _token (self (snd run)) = _token (self st)).
Proof.
  intros nickname email password phone code_handler st run. subst run.
  unfold register. cbn [await]. cbv zeta. split.
  - walk; cbn [snd sent after ret]; rewrite <- ?app_assoc; cbn [app];
      eexists; (split; [reflexivity | ]);
      (split; [cbn; lia | ]);
      repeat constructor.
  - intros e. walk; cbn [fst snd ret];
      solve [ reflexivity | intros H; discriminate H ].
Qed.

(** X12: a registration whose three steps are answered, with a
    [phone_key] in the first answer and an [access_token] in the third,
    returns [True], stores that token and has made three calls: [/users]
    with the password twice, [/callme] with the phone key of the first
    answer, [/phoneactivate] with the code the handler gave. The second
    answer is not read at all. *)
Theorem register_completes :
  forall (nickname email password phone : value) (code_handler : unit -> value)
         (result1 data1 phone_key result2 result3 data3 tok : value)
         (st : state world),
    let call1 := users_request nickname email password in
    let call2 := callme_request phone_key phone in
    let call3 := phoneactivate_request (code_handler tt) phone in
    fst (dispatch call1 (net st)) = json_response result1 ->
    getitem result1 "data" = Return data1 ->
    getitem data1 "phone_key" = Return phone_key ->
    fst (dispatch call2 (net (after call1 st))) = json_response result2 ->
    fst (dispatch call3 (net (after call2 (after call1 st))))
      = json_response result3 ->
    getitem result3 "data" = Return data3 ->
    getitem data3 "access_token" = Return tok ->
    let run := await (register nickname email password phone code_handler) st in
    fst run = Return true
    /\ _token (self (snd run)) = tok
    /\ sent (snd run) = (sent st ++ [call1; call2; call3])%list.
Proof.
  intros nickname email password phone code_handler result1 data1 phone_key
    result2 result3 data3 tok st call1 call2 call3 H1 Hdata1 Hkey H2 H3 Hdata3
    Htok run.
  subst call1 call2 call3 run. spell_out.
  unfold register. cbn [await]. cbv zeta.
  answered H1. rewrite bind_lift, Hdata1, bind_lift, Hkey.
  answered H2. answered H3.
  rewrite bind_lift, Hdata3, bind_lift, Htok, bind_set_token.
  cbn [fst snd ret self _token sent after]. rewrite <- !app_assoc.
  repeat split; reflexivity.
Qed.

(** X13: a registration whose first answer has no [data], or no
    [phone_key] under it, ends there: the lookup's exception comes out,
    one call has been made and the token is what it was. *)
Theorem register_aborts_at_first_step :
  forall (nickname email password phone : value) (code_handler : unit -> value)
         (result1 : value) (e : exn) (st : state world),
    fst (dispatch (users_request nickname email password) (net st))
      = json_response result1 ->
    (getitem result1 "data" = Raise e
     \/ exists data1 : value,
          getitem result1 "data" = Return data1
          /\ getitem data1 "phone_key" = Raise e) ->
    await (register nickname email password phone code_handler) st
    = (Raise e, after (users_request nickname email password) st).
Proof.
  intros nickname email password phone code_handler result1 e st H1 Hfail.
  spell_out. unfold register. cbn [await]. cbv zeta.
  answered H1. rewrite bind_lift.
  destruct Hfail as [Hdata | [data1 [Hdata Hkey]]]; rewrite Hdata.
  - reflexivity.
  - rewrite bind_lift, Hkey. reflexivity.
Qed.

(** ** [comment_post] and [get_comments] on what the server may send *)

(** X14: [comment_post] answered with a [data] object holding [id],
    [nickname], [comment] and [created_at] returns the comment built from
    these four, after the one POST whose body is the JSON object with the
    text under [comment]. *)
Theorem comment_post_returns_comment :
  forall (post_id text result d uid nickname comment created_at : value)
         (st : state world),
    fst (dispatch (comment_post_request (_token (self st)) post_id text) (net st))
      = json_response result ->
    getitem result "data" = Return d ->
    getitem d "id" = Return uid ->
    getitem d "nickname" = Return nickname ->
    getitem d "comment" = Return comment ->
    getitem d "created_at" = Return created_at ->
    await (comment_post post_id text) st
    = (Return (Comment__init__ uid nickname comment created_at),
       after (comment_post_request (_token (self st)) post_id text) st).
Proof.
  intros post_id text result d uid nickname comment created_at st
    Hreply Hdata Hid Hnick Htext Hcreated.
  spell_out. unfold comment_post. cbn [await]. answered Hreply.
  rewrite Hdata.
  repeat (rewrite bind_lift; cbv beta iota;
          rewrite ?Hid, ?Hnick, ?Htext, ?Hcreated).
  reflexivity.
Qed.

(** X15: [comment_post] answered with a [data] object that lacks one of
    the four entries raises [KeyError] for the first one missing, in the
    order [id], [nickname], [comment], [created_at]; without [data] at all
    it raises [KeyError] for [data]. No comment is returned. *)
Theorem comment_post_missing_entry :
  forall (post_id text : value) (entries fields : list (string * value))
         (st : state world),
    fst (dispatch (comment_post_request (_token (self st)) post_id text) (net st))
      = json_response (VDict entries) ->
    (lookup "data" entries = None ->
       fst (await (comment_post post_id text) st) = Raise (KeyError "data"))
    /\ (lookup "data" entries = Some (VDict fields) ->
        (lookup "id" fields = None ->
           fst (await (comment_post post_id text) st) = Raise (KeyError "id"))
        /\ (lookup "id" fields <> None -> lookup "nickname" fields = None ->
            fst (await (comment_post post_id text) st)
            = Raise (KeyError "nickname"))
        /\ (lookup "id" fields <> None -> lookup "nickname" fields <> None ->
            lookup "comment" fields = None ->
            fst (await (comment_post post_id text) st)
            = Raise (KeyError "comment"))
        /\ (lookup "id" fields <> None -> lookup "nickname" fields <> None ->
            lookup "comment" fields <> None ->
            lookup "created_at" fields = None ->
            fst (await (comment_post post_id text) st)
            = Raise (KeyError "created_at"))).
Proof.
  intros post_id text entries fields st Hreply.
  spell_out. unfold comment_post. cbn [await]. answered Hreply.
  split.
  - intros Hdata. rewrite bind_lift. unfold getitem. rewrite Hdata. reflexivity.
  - intros Hdata.
    assert (Hget : getitem (VDict entries) "data" = Return (VDict fields))
      by (unfold getitem; rewrite Hdata; reflexivity).
    rewrite Hget.
    repeat split; intros;
      repeat (rewrite bind_lift; cbv beta iota; cbn [getitem];
              try match goal with
                  | H : lookup ?k fields = None
                    |- context [match lookup ?k fields with _ => _ end] =>
                      rewrite H
                  | H : lookup ?k fields <> None
                    |- context [match lookup ?k fields with _ => _ end] =>
                      destruct (lookup k fields); [ | contradiction]
                  end;
              cbv beta iota);
      reflexivity.
Qed.

Lemma field_for_field_object o c :
  field_for_field o c -> comment_object o = true.
Proof.
  intros [Hid [Hnick [Htext Hcreated]]].
  destruct o as [ | | | | | entries]; try discriminate Hid.
  unfold getitem in *. unfold comment_object.
  destruct (lookup "id" entries); [ | discriminate Hid].
  destruct (lookup "nickname" entries); [ | discriminate Hnick].
  destruct (lookup "comment" entries); [ | discriminate Htext].
  destruct (lookup "created_at" entries); [ | discriminate Hcreated].
  reflexivity.
Qed.

(** X16: [get_comments] answered with a [data] list returns exactly when
    every item of the list is an object with the four entries: one item
    that is not makes the whole call raise, and no comment is returned. *)
Theorem get_comments_returns_iff_all_objects :
  forall (post_id limit offset result : value) (objs : list value)
         (st : state world),
    fst (dispatch (get_comments_request (_token (self st)) post_id limit offset)
           (net st)) = json_response result ->
    getitem result "data" = Return (VList objs) ->
    ((exists cs : list Comment,
        fst (await (get_comments post_id limit offset) st) = Return cs)
     <-> forallb comment_object objs = true).
Proof.
  intros post_id limit offset result objs st Hreply Hdata. split.
  - intros [cs Hcs]. apply forallb_forall. intros o Ho.
    pose proof (get_comments_returns _ _ _ _ _ _ _ Hreply Hdata Hcs) as Hall.
    clear Hcs Hdata Hreply. induction Hall as [ | o' c objs' cs' Hfields _ IH].
    + destruct Ho.
    + destruct Ho as [<- | Ho].
      * eapply field_for_field_object. exact Hfields.
      * apply IH. exact Ho.
  - intros Hobjs.
    rewrite (get_comments_run _ _ _ _ _ Hreply), Hdata. cbn [iterate].
    destruct (comprehension_objects objs
                (after (get_comments_request (_token (self st)) post_id limit
                          offset) st) Hobjs) as [cs [Hcs _]].
    exists cs. rewrite Hcs. reflexivity.
Qed.

(** X17: [get_comments] answered with a [data] that is no list. An empty
    dictionary or string gives the empty list of comments; [None], a
    boolean, an integer, and a non-empty dictionary or string (whose items
    are strings, which have no entries) give [TypeError]. *)
Theorem get_comments_data_not_a_list :
  forall (post_id limit offset result d : value) (st : state world),
    fst (dispatch (get_comments_request (_token (self st)) post_id limit offset)
           (net st)) = json_response result ->
    getitem result "data" = Return d ->
    (truthy d = false -> (exists fields, d = VDict fields) \/ (exists s, d = VStr s) ->
       fst (await (get_comments post_id limit offset) st) = Return [])
    /\ (d = VNone \/ (exists b, d = VBool b) \/ (exists n, d = VInt n) ->
        fst (await (get_comments post_id limit offset) st) = Raise TypeError)
    /\ (truthy d = true -> (exists fields, d = VDict fields) \/ (exists s, d = VStr s) ->
        fst (await (get_comments post_id limit offset) st) = Raise TypeError).
Proof.
  intros post_id limit offset result d st Hreply Hdata.
  rewrite (get_comments_run _ _ _ _ _ Hreply), Hdata.
  repeat split.
  - intros Hfalse [[fields ->] | [s ->]].
    + destruct fields; [reflexivity | discriminate Hfalse].
    + destruct s; [reflexivity | discriminate Hfalse].
  - intros [-> | [[b ->] | [n ->]]]; reflexivity.
  - intros Htrue [[fields ->] | [s ->]].
    + destruct fields as [ | [k v] rest]; [discriminate Htrue | reflexivity].
    + destruct s as [ | c rest]; [discriminate Htrue | reflexivity].
Qed.

(** X18: every comment [get_comments] returns has no client bound to it:
    [delete], [like] and [dislike] on it raise [AttributeError] before
    anything is sent. *)
Theorem get_comments_returns_unbound_comments :
  forall (post_id limit offset : value) (cs : list Comment) (c : Comment)
         (st st' : state world),
    fst (await (get_comments post_id limit offset) st) = Return cs ->
    In c cs ->
    await (Comment_delete c) st' = (Raise (AttributeError "_client"), st')
    /\ await (Comment_like c) st' = (Raise (AttributeError "_client"), st')
    /\ await (Comment_dislike c) st' = (Raise (AttributeError "_client"), st').
Proof.
  intros post_id limit offset cs c st st' Hcs Hin.
  pose proof (get_comments_returns_unbound _ _ _ _ _ Hcs) as Hall.
  rewrite Forall_forall in Hall. specialize (Hall c Hin).
  unfold Comment_delete, Comment_like, Comment_dislike. cbn [await].
  rewrite !bind_getattr, Hall. repeat split; reflexivity.
Qed.

(** ** The entities once a caller has bound [_client] on them *)

Lemma bind_bind_ret_None {A} (m : M A) st :
  bind m (fun _ => ret VNone) st = returns_None (m st).
Proof.
  unfold bind, returns_None. destruct (m st) as [[a | e] st']; reflexivity.
Qed.

(** X19: on a comment whose [_client] is bound, [delete], [like] and
    [dislike] run the client's [delete_comment], [like_comment] and
    [dislike_comment] with the comment's own [uid]; the exception of the
    client call comes out as it is, and its [True] is dropped: the method
    returns [None]. *)
Theorem bound_comment_methods_delegate :
  forall (c : Comment) (st : state world),
    Comment__client c = Some the_client ->
    await (Comment_delete c) st
    = returns_None (await (delete_comment (Comment_uid c)) st)
    /\ await (Comment_like c) st
       = returns_None (await (like_comment (Comment_uid c)) st)
    /\ await (Comment_dislike c) st
       = returns_None (await (dislike_comment (Comment_uid c)) st).
Proof.
  intros c st Hbound.
  unfold Comment_delete, Comment_like, Comment_dislike.
  cbn [await]. rewrite !bind_getattr, Hbound.
  repeat split; apply bind_bind_ret_None.
Qed.

(** X20: on a post whose [_client] is bound, [delete], [like] and
    [dislike] run the client's [delete_post], [like_post] and
    [dislike_post] with the post's own [uid] and return [None], while
    [comment] is the client's [comment_post] on that [uid], result
    included. *)
Theorem bound_post_methods_delegate :
  forall (p : Post) (text : value) (st : state world),
    Post__client p = Some the_client ->
    await (Post_delete p) st = returns_None (await (delete_post (Post_uid p)) st)
    /\ await (Post_like p) st = returns_None (await (like_post (Post_uid p)) st)
    /\ await (Post_dislike p) st
       = returns_None (await (dislike_post (Post_uid p)) st)
    /\ await (Post_comment p text) st = await (comment_post (Post_uid p) text) st.
Proof.
  intros p text st Hbound.
  unfold Post_delete, Post_like, Post_dislike, Post_comment.
  cbn [await]. rewrite !bind_getattr, Hbound.
  repeat split; apply bind_bind_ret_None.
Qed.

(** X21: [User.delete], on a user whose [_client] is bound, makes the call
    that deletes a comment, DELETE [/posts/comment/{uid}], with the user's
    [uid] in the place of the comment's, and returns [None]; on a user
    built by the constructor it raises [AttributeError] like the other
    entities. *)
Theorem user_delete_calls_delete_comment :
  forall (u : User) (st : state world),
    (User__client u = Some the_client ->
       await (User_delete u) st
       = returns_None (await (delete_comment (User_uid u)) st)
       /\ sent (snd (await (User_delete u) st))
          = (sent st
             ++ [mkRequest requests_delete
                   ("https://api.grustnogram.ru/posts/comment/"
                      ++ py_str (User_uid u))%string
                   (auth_headers (_token (self st))) None])%list)
    /\ (User__client u = None ->
        await (User_delete u) st = (Raise (AttributeError "_client"), st)).
Proof.
  intros u st. unfold User_delete. cbn [await].
  rewrite !bind_getattr. split; intros Hbound; rewrite Hbound.
  - rewrite bind_bind_ret_None. split; [reflexivity | ].
    unfold delete_comment. cbn [await]. spell_out. walk; reflexivity.
  - reflexivity.
Qed.

(** ** Composition, and identifiers in URLs *)

(** X22: of two logins in a row the last one wins: the client holds the
    token of the second answer, and the second request, like the first,
    carries no trace of the token obtained in between. *)
Theorem second_login_replaces_token :
  forall (login1 password1 login2 password2 result1 d1 tok1 result2 d2 tok2
            : value)
         (st : state world),
    let st1 := snd (await (login login1 password1) st) in
    let st2 := snd (await (login login2 password2) st1) in
    fst (dispatch (login_request login1 password1) (net st))
      = json_response result1 ->
    getitem result1 "data" = Return d1 ->
    getitem d1 "access_token" = Return tok1 ->
    fst (dispatch (login_request login2 password2)
           (net (after (login_request login1 password1) st)))
      = json_response result2 ->
    getitem result2 "data" = Return d2 ->
    getitem d2 "access_token" = Return tok2 ->
    _token (self st1) = tok1
    /\ _token (self st2) = tok2
    /\ sent st2
       = (sent st ++ [login_request login1 password1;
                      login_request login2 password2])%list.
Proof.
  intros login1 password1 login2 password2 result1 d1 tok1 result2 d2 tok2 st
    st1 st2 H1 Hd1 Ht1 H2 Hd2 Ht2.
  assert (Hst1 : st1 = mkState (mkClient tok1)
                         (net (after (login_request login1 password1) st))
                         (sent (after (login_request login1 password1) st))).
  { subst st1. rewrite (login_run _ _ _ _ H1), Hd1, Ht1. reflexivity. }
  assert (H2' : fst (dispatch (login_request login2 password2) (net st1))
                = json_response result2)
    by (rewrite Hst1; exact H2).
  subst st2. rewrite (login_run _ _ _ _ H2'), Hd2, Ht2.
  rewrite Hst1. cbn [snd self _token sent net after].
  rewrite <- app_assoc. repeat split; reflexivity.
Qed.

Lemma int_repr_inj (a b : Z) : int_repr a = int_repr b -> a = b.
Proof.
  unfold int_repr. intros H.
  assert (Hnz : forall z, Z.to_int z <> Decimal.Pos Decimal.Nil
                          /\ Z.to_int z <> Decimal.Neg Decimal.Nil).
  { intros [ | p | p]; cbn; split; try discriminate;
      intros E; injection E as E;
      apply (DecimalPos.Unsigned.to_uint_nonnil p); exact E. }
  apply DecimalZ.to_int_inj.
  assert (Hsome : Some (Z.to_int a) = Some (Z.to_int b)).
  { rewrite <- (NilZero.isi (Z.to_int a)) by apply Hnz.
    rewrite <- (NilZero.isi (Z.to_int b)) by apply Hnz.
    rewrite H. reflexivity. }
  injection Hsome as E. exact E.
Qed.

Lemma length_append (s t : string) :
  String.length (s ++ t) = String.length s + String.length t.
Proof. induction s as [ | c s IH]; cbn; [reflexivity | rewrite IH; reflexivity]. Qed.

Lemma append_cancel_r (a b s : string) : a ++ s = b ++ s -> a = b.
Proof.
  revert b. induction a as [ | c a IH]; intros [ | d b] H.
  - reflexivity.
  - exfalso. apply (f_equal String.length) in H.
    cbn in H. rewrite length_append in H. lia.
  - exfalso. apply (f_equal String.length) in H.
    cbn in H. rewrite length_append in H. lia.
  - cbn in H. injection H as -> H. f_equal. apply IH. exact H.
Qed.

(** X23: an identifier is written into the URL as [str] gives it, with no
    check and no escaping. Two different integers give two different
    URLs; an integer and its decimal text give the same call; and a text
    with a slash in it reaches another operation's resource:
    [delete_post] on ["{n}/like"] makes the very call [dislike_post]
    makes on [n]. *)
Theorem identifiers_are_written_verbatim :
  forall (tok : value) (a b : Z),
    (a <> b ->
       url (like_post_request tok (VInt a)) <> url (like_post_request tok (VInt b)))
    /\ like_post_request tok (VStr (int_repr a)) = like_post_request tok (VInt a)
    /\ delete_post_request tok (VStr (int_repr a ++ "/like"))
       = dislike_post_request tok (VInt a).
Proof.
  intros tok a b. repeat split.
  intros Hneq Heq. apply Hneq. apply int_repr_inj.
  unfold like_post_request in Heq. cbn [url py_str py_repr] in Heq.
  apply append_cancel_r with (s := "/like").
  remember (int_repr a ++ "/like") as ua.
  remember (int_repr b ++ "/like") as ub.
  cbn in Heq. injection Heq as E. exact E.
Qed.

End Client.

(** ** Concrete runs against a scripted network *)

(** Validation at [err = [103, 100]] and at [err = [0, 7]]: the first raises
    [EmailExistsError] although 103 comes first in the list, the second
    [UnknownError] with the dumped envelope. *)
Lemma validate_result_raises_first_match_witness :
  let st := mkState GrustnogramClient__init__ ([] : list reply) [] in
  (lookup "err" [("err", VList [VInt 103; VInt 100]); ("data", VNone)]
     = Some (VList [VInt 103; VInt 100])
   /\ In (VInt 100) [VInt 103; VInt 100]
   /\ await (_validate_result
               (VDict [("err", VList [VInt 103; VInt 100]); ("data", VNone)])) st
      = (Raise (EmailExistsError "Specified email already exists"), st))
  /\ (lookup "err" [("err", VList [VInt 0; VInt 7])]
        = Some (VList [VInt 0; VInt 7])
      /\ (exists n : Z, n <> 0%Z /\ In (VInt n) [VInt 0; VInt 7])
      /\ await (_validate_result (VDict [("err", VList [VInt 0; VInt 7])])) st
         = (Raise (UnknownError
                     (json_dumps (Some 4) (VDict [("err", VList [VInt 0; VInt 7])]))),
            st)).
Proof.
  intros st. split.
  - split; [reflexivity | ]. split; [simpl; auto | ].
    apply (proj1 (validate_result_raises_first_match
                    [("err", VList [VInt 103; VInt 100]); ("data", VNone)]
                    [VInt 103; VInt 100] st eq_refl)).
    simpl. auto.
  - split; [reflexivity | ].
    assert (Hsome : exists n : Z, n <> 0%Z /\ In (VInt n) [VInt 0; VInt 7]).
    { exists 7%Z. split; [discriminate | simpl; auto]. }
    split; [exact Hsome | ].
    apply (proj2 (proj2 (proj2 (proj2 (validate_result_raises_first_match
                    [("err", VList [VInt 0; VInt 7])]
                    [VInt 0; VInt 7] st eq_refl))))).
    + discriminate.
    + simpl. intros [H | [H | []]]; discriminate H.
    + simpl. intros [H | [H | []]]; discriminate H.
    + simpl. intros [H | [H | []]]; discriminate H.
    + simpl. intros [H | [H | []]]; discriminate H.
    + exact Hsome.
Defined.

(** Validation at [err = [0]]. *)
Lemma validate_result_all_zero_is_success_witness :
  let st := mkState GrustnogramClient__init__ ([] : list reply) [] in
  lookup "err" [("err", VList [VInt 0])] = Some (VList [VInt 0])
  /\ [VInt 0] <> []
  /\ Forall (fun code => code = VInt 0) [VInt 0]
  /\ await (_validate_result (VDict [("err", VList [VInt 0])])) st = (Return tt, st).
Proof.
  intros st.
  assert (Hne : [VInt 0] <> []) by discriminate.
  assert (Hzero : Forall (fun code => code = VInt 0) [VInt 0])
    by (constructor; [reflexivity | constructor]).
  split; [reflexivity | ]. split; [exact Hne | ]. split; [exact Hzero | ].
  exact (validate_result_all_zero_is_success
           [("err", VList [VInt 0])] [VInt 0] st eq_refl Hne Hzero).
Defined.

(** An envelope without [err]: validation returns and [login]
    reads the token out of [data]. *)
Lemma validate_result_empty_or_absent_is_success_witness :
  let entries := [("data", VDict [("access_token", VStr "tok-abc")])] in
  let st := mkState GrustnogramClient__init__ [json_response (VDict entries)] [] in
  (lookup "err" entries = None \/ lookup "err" entries = Some (VList []))
  /\ await (_validate_result (VDict entries)) st = (Return tt, st)
  /\ fst (await (login scripted (VStr "alice") (VStr "secret")) st) = Return true
  /\ _token (self (snd (await (login scripted (VStr "alice") (VStr "secret")) st)))
     = VStr "tok-abc".
Proof.
  intros entries st.
  assert (Herr : lookup "err" entries = None
                 \/ lookup "err" entries = Some (VList []))
    by (left; reflexivity).
  split; [exact Herr | ].
  destruct (validate_result_empty_or_absent_is_success scripted entries st Herr)
    as [Hvalid [Hlogin _]].
  split; [exact Hvalid | ].
  exact (Hlogin (VStr "alice") (VStr "secret")
           (VDict [("access_token", VStr "tok-abc")]) (VStr "tok-abc")
           eq_refl eq_refl eq_refl).
Defined.

(** The scenario from a fresh client, against a network that answers the
    login and then the like. *)
Lemma login_then_like_post_scenario_witness :
  let st := mkState GrustnogramClient__init__
              [json_response
                 (VDict [("err", VList []);
                         ("data", VDict [("access_token", VStr "tok-abc")])]);
               json_response (VDict [("err", VList [])])] [] in
  let st1 := snd (await (login scripted (VStr "alice") (VStr "secret")) st) in
  fst (scripted (login_request (VStr "alice") (VStr "secret")) (net st))
    = json_response
        (VDict [("err", VList []);
                ("data", VDict [("access_token", VStr "tok-abc")])])
  /\ fst (await (login scripted (VStr "alice") (VStr "secret")) st) = Return true
  /\ _token (self st1) = VStr "tok-abc"
  /\ sent (snd (await (like_post scripted (VInt 42)) st1))
     = (sent st1
        ++ [mkRequest requests_post "https://api.grustnogram.ru/posts/42/like"
              [("accept", VStr "application/json");
               ("content-type", VStr "application/x-www-form-urlencoded");
               ("user-agent", VStr "Python SDK");
               ("access-token", VStr "tok-abc")]
              None])%list.
Proof.
  intros st st1. split; [reflexivity | ].
  exact (login_then_like_post_scenario scripted st eq_refl).
Defined.

(** The same run, evaluated: the two calls the HTTP library received. *)
Example login_then_like_post_trace :
  let st := mkState GrustnogramClient__init__
              [json_response
                 (VDict [("err", VList []);
                         ("data", VDict [("access_token", VStr "tok-abc")])]);
               json_response (VDict [("err", VList [])])] [] in
  let st1 := snd (await (login scripted (VStr "alice") (VStr "secret")) st) in
  sent (snd (await (like_post scripted (VInt 42)) st1))
  = [mkRequest requests_post "https://api.grustnogram.ru/sessions"
       [("accept", VStr "application/json");
        ("content-type", VStr "application/x-www-form-urlencoded");
        ("user-agent", VStr "Python SDK")]
       (Some (list_byte_of_string
                ("{" ++ quoted "email" ++ ": " ++ quoted "alice" ++ ", "
                     ++ quoted "password" ++ ": " ++ quoted "secret" ++ "}")));
     mkRequest requests_post "https://api.grustnogram.ru/posts/42/like"
       [("accept", VStr "application/json");
        ("content-type", VStr "application/x-www-form-urlencoded");
        ("user-agent", VStr "Python SDK");
        ("access-token", VStr "tok-abc")]
       None].
Proof. reflexivity. Qed.

(** [get_comments] at a [data] array of three comment objects. *)
Lemma get_comments_maps_data_in_order_witness :
  let obj (uid : Z) (nickname text : string) (created_at : Z) :=
    VDict [("id", VInt uid); ("nickname", VStr nickname);
           ("comment", VStr text); ("created_at", VInt created_at)] in
  let objs := [obj 3%Z "mara" "so sad" 1650000300%Z;
               obj 1%Z "olek" "sadder" 1650000100%Z;
               obj 2%Z "ines" "saddest" 1650000200%Z] in
  let result := VDict [("err", VList []); ("data", VList objs)] in
  let st := mkState (mkClient (VStr "tok-abc")) [json_response result] [] in
  fst (scripted (get_comments_request (_token (self st)) (VInt 42)
                   default_limit default_offset) (net st))
    = json_response result
  /\ getitem result "data" = Return (VList objs)
  /\ forallb comment_object objs = true
  /\ exists cs : list Comment,
       fst (await (get_comments scripted (VInt 42) default_limit default_offset) st)
         = Return cs
       /\ List.length cs = List.length objs
       /\ Forall2 field_for_field objs cs.
Proof.
  intros obj objs result st.
  split; [reflexivity | ]. split; [reflexivity | ]. split; [reflexivity | ].
  exact (get_comments_maps_data_in_order scripted (VInt 42) default_limit
           default_offset result objs st eq_refl eq_refl eq_refl).
Defined.

(** The same run, evaluated: three comments, in the server's order. *)
Example get_comments_three :
  let obj (uid : Z) (nickname text : string) (created_at : Z) :=
    VDict [("id", VInt uid); ("nickname", VStr nickname);
           ("comment", VStr text); ("created_at", VInt created_at)] in
  let result :=
    VDict [("err", VList []);
           ("data", VList [obj 3%Z "mara" "so sad" 1650000300%Z;
                           obj 1%Z "olek" "sadder" 1650000100%Z;
                           obj 2%Z "ines" "saddest" 1650000200%Z])] in
  let st := mkState (mkClient (VStr "tok-abc")) [json_response result] [] in
  fst (await (get_comments scripted (VInt 42) default_limit default_offset) st)
  = Return
      [Comment__init__ (VInt 3) (VStr "mara") (VStr "so sad") (VInt 1650000300);
       Comment__init__ (VInt 1) (VStr "olek") (VStr "sadder") (VInt 1650000100);
       Comment__init__ (VInt 2) (VStr "ines") (VStr "saddest") (VInt 1650000200)].
Proof. reflexivity. Qed.

(** A registration whose three steps are answered. *)
Lemma register_third_request_carries_code_witness :
  let st := mkState GrustnogramClient__init__
              [json_response
                 (VDict [("err", VList []);
                         ("data", VDict [("phone_key", VStr "pk-1")])]);
               json_response (VDict [("err", VList [])]);
               json_response
                 (VDict [("err", VList []);
                         ("data", VDict [("access_token", VStr "tok-new")])])]
              [] in
  let code_handler := fun _ : unit => VStr "1234" in
  let run := await (register scripted (VStr "mara") (VStr "mara@example.com")
                      (VStr "hunter2") (VStr "+70000000000") code_handler) st in
  code_handler tt = VStr "1234"
  /\ sent (snd run)
     = (sent st
        ++ [users_request (VStr "mara") (VStr "mara@example.com") (VStr "hunter2");
            callme_request (VStr "pk-1") (VStr "+70000000000");
            phoneactivate_request (VStr "1234") (VStr "+70000000000")])%list
  /\ phoneactivate_request (VStr "1234") (VStr "+70000000000")
     = mkRequest requests_post "https://api.grustnogram.ru/phoneactivate"
         [("accept", VStr "application/json");
          ("content-type", VStr "application/x-www-form-urlencoded");
          ("user-agent", VStr "Python SDK")]
         (Some (encode (json_dumps None
            (VDict [("code", VStr "1234"); ("phone", VStr "+70000000000")])))).
Proof.
  intros st code_handler run.
  assert (Hsent : sent (snd run)
     = (sent st
        ++ [users_request (VStr "mara") (VStr "mara@example.com") (VStr "hunter2");
            callme_request (VStr "pk-1") (VStr "+70000000000");
            phoneactivate_request (VStr "1234") (VStr "+70000000000")])%list)
    by reflexivity.
  split; [reflexivity | ]. split; [exact Hsent | ].
  exact (register_third_request_carries_code scripted (VStr "mara")
           (VStr "mara@example.com") (VStr "hunter2") (VStr "+70000000000")
           code_handler st _ _ _ [] eq_refl Hsent).
Defined.

(** The same run, evaluated: [register] returns [True] and the client holds
    the token of the third answer. *)
Example register_sets_token :
  let st := mkState GrustnogramClient__init__
              [json_response
                 (VDict [("err", VList []);
                         ("data", VDict [("phone_key", VStr "pk-1")])]);
               json_response (VDict [("err", VList [])]);
               json_response
                 (VDict [("err", VList []);
                         ("data", VDict [("access_token", VStr "tok-new")])])]
              [] in
  let run := await (register scripted (VStr "mara") (VStr "mara@example.com")
                      (VStr "hunter2") (VStr "+70000000000")
                      (fun _ => VStr "1234")) st in
  fst run = Return true /\ _token (self (snd run)) = VStr "tok-new".
Proof. split; reflexivity. Qed.

(** The body of that third request, byte for byte. *)
Example register_third_request_body :
  data (phoneactivate_request (VStr "1234") (VStr "+70000000000"))
  = Some (list_byte_of_string
            ("{" ++ quoted "code" ++ ": " ++ quoted "1234" ++ ", "
                 ++ quoted "phone" ++ ": " ++ quoted "+70000000000" ++ "}")).
Proof. reflexivity. Qed.

(** ** Where the code departs from what it sets out to do *)

(** C3: [login] answered with error code 103, and with 102. Validation of
    either envelope, when awaited, raises the typed error; [login] does not
    await it and fails on the missing [data] instead. *)
Lemma login_error_codes_raise_KeyError :
  let wrong_password := VDict [("err", VList [VInt 103])] in
  let no_such_user := VDict [("err", VList [VInt 102])] in
  let st103 := mkState GrustnogramClient__init__ [json_response wrong_password] [] in
  let st102 := mkState GrustnogramClient__init__ [json_response no_such_user] [] in
  fst (await (_validate_result wrong_password) st103)
    = Raise (BadCredentialsError "Specified password is invalid")
  /\ fst (await (login scripted (VStr "alice") (VStr "wrong")) st103)
     = Raise (KeyError "data")
  /\ fst (await (_validate_result no_such_user) st102)
     = Raise (UserNotFoundError "Specified user not found")
  /\ fst (await (login scripted (VStr "nobody") (VStr "secret")) st102)
     = Raise (KeyError "data").
Proof. repeat split; reflexivity. Qed.

(** When the rejected response carries a [data] object all the same,
    [login] returns [True] and stores what it finds there. *)
Example login_error_code_ignored :
  let result := VDict [("err", VList [VInt 103]);
                       ("data", VDict [("access_token", VStr "")])] in
  let st := mkState GrustnogramClient__init__ [json_response result] [] in
  fst (await (login scripted (VStr "alice") (VStr "wrong")) st) = Return true
  /\ _token (self (snd (await (login scripted (VStr "alice") (VStr "wrong")) st)))
     = VStr "".
Proof. split; reflexivity. Qed.

(** C9: a comment returned by [comment_post] carries the identifier the
    server gave it, and its [delete] raises [AttributeError]: nothing has
    bound [_client] on it, and no request leaves the client. *)
Lemma returned_comment_delete_raises_AttributeError :
  let result :=
    VDict [("err", VList []);
           ("data", VDict [("id", VInt 7); ("nickname", VStr "mara");
                           ("comment", VStr "so sad");
                           ("created_at", VInt 1650000300)])] in
  let st := mkState (mkClient (VStr "tok-abc"))
              [json_response result; json_response (VDict [("err", VList [])])]
              [] in
  exists (c : Comment) (st1 : state (list reply)),
    await (comment_post scripted (VInt 42) (VStr "so sad")) st = (Return c, st1)
    /\ Comment_uid c = VInt 7
    /\ await (Comment_delete scripted c) st1 = (Raise (AttributeError "_client"), st1)
    /\ await (Comment_like scripted c) st1 = (Raise (AttributeError "_client"), st1)
    /\ await (Comment_dislike scripted c) st1
       = (Raise (AttributeError "_client"), st1).
Proof.
  intros result st. eexists. eexists.
  split; [reflexivity | ]. repeat split; reflexivity.
Qed.

(** ** Further concrete runs *)

(** Validation of [{"err": 0}]. *)
Lemma validate_result_falsy_err_is_success_witness :
  let st := mkState GrustnogramClient__init__ ([] : list reply) [] in
  lookup "err" [("err", VInt 0)] = Some (VInt 0)
  /\ truthy (VInt 0) = false
  /\ await (_validate_result (VDict [("err", VInt 0)])) st = (Return tt, st).
Proof.
  intros st. split; [reflexivity | ]. split; [reflexivity | ].
  exact (validate_result_falsy_err_is_success
           [("err", VInt 0)] (VInt 0) st eq_refl eq_refl).
Defined.

(** Validation of [{"err": 103}]: the code that stands for a wrong
    password, sent bare, ends in [TypeError]. *)
Lemma validate_result_scalar_err_raises_TypeError_witness :
  let st := mkState GrustnogramClient__init__ ([] : list reply) [] in
  103%Z <> 0%Z
  /\ lookup "err" [("err", VInt 103)] = Some (VInt 103)
  /\ await (_validate_result (VDict [("err", VInt 103)])) st
     = (Raise TypeError, st).
Proof.
  intros st.
  assert (Hnz : 103%Z <> 0%Z) by discriminate.
  split; [exact Hnz | ]. split; [reflexivity | ].
  exact (proj1 (proj2 (validate_result_scalar_err_raises_TypeError
                         [("err", VInt 103)] st)) 103%Z Hnz eq_refl).
Defined.

(** Validation of [{"err": {"103": "bad password"}}]. *)
Lemma validate_result_dict_err_raises_UnknownError_witness :
  let codes := [("103", VStr "bad password")] in
  let entries := [("err", VDict codes)] in
  let st := mkState GrustnogramClient__init__ ([] : list reply) [] in
  lookup "err" entries = Some (VDict codes)
  /\ In ("103", VStr "bad password") codes
  /\ "103" <> EmptyString
  /\ await (_validate_result (VDict entries)) st
     = (Raise (UnknownError (json_dumps (Some 4) (VDict entries))), st).
Proof.
  intros codes entries st.
  assert (Hin : In ("103", VStr "bad password") codes) by (left; reflexivity).
  assert (Hkey : "103" <> EmptyString) by discriminate.
  split; [reflexivity | ]. split; [exact Hin | ]. split; [exact Hkey | ].
  exact (validate_result_dict_err_raises_UnknownError
           entries codes "103" (VStr "bad password") st eq_refl Hin Hkey).
Defined.

(** Validation of a response that is a JSON array. *)
Lemma validate_result_non_dict_envelope_witness :
  let st := mkState GrustnogramClient__init__ ([] : list reply) [] in
  existsb (eq_str "err") [VInt 103] = false
  /\ await (_validate_result (VList [VInt 103])) st = (Return tt, st).
Proof.
  intros st. split; [reflexivity | ].
  exact (proj1 (validate_result_non_dict_envelope st) [VInt 103] eq_refl).
Defined.

(** [like_post] answered with the code for an unknown user returns
    [True]. *)
Lemma flag_operations_return_True_on_any_json_witness :
  let result := VDict [("err", VList [VInt 102])] in
  let st := mkState (mkClient (VStr "tok-abc")) [json_response result] [] in
  fst (scripted (like_post_request (_token (self st)) (VInt 42)) (net st))
    = json_response result
  /\ fst (await (like_post scripted (VInt 42)) st) = Return true.
Proof.
  intros result st. split; [reflexivity | ].
  exact (proj1 (flag_operations_return_True_on_any_json scripted
                  (VInt 42) VNone VNone VNone result st) eq_refl).
Defined.

(** [login] answered with [{"err": [103]}]: what it raises is no error of
    the API. *)
Lemma no_operation_raises_api_error_witness :
  let st := mkState GrustnogramClient__init__
              [json_response (VDict [("err", VList [VInt 103])])] [] in
  fst (await (login scripted (VStr "alice") (VStr "wrong")) st)
    = Raise (KeyError "data")
  /\ api_error (KeyError "data") = false.
Proof.
  intros st. split; [reflexivity | ].
  exact (proj1 (no_operation_raises_api_error scripted
                  (VStr "alice") (VStr "wrong") VNone VNone VNone VNone VNone
                  VNone VNone VNone VNone (fun _ => VNone) st (KeyError "data"))
               eq_refl).
Defined.

(** [like_post] with no network. *)
Lemma transport_failures_surface_witness :
  let st := mkState (mkClient (VStr "tok-abc")) ([] : list reply) [] in
  fst (scripted (like_post_request (_token (self st)) (VInt 42)) (net st))
    = Unreachable
  /\ fst (await (like_post scripted (VInt 42)) st) = Raise RequestException.
Proof.
  intros st. split; [reflexivity | ].
  exact (proj1 (proj1 (proj2 (proj2 (transport_failures_surface scripted
                  VNone VNone VNone VNone VNone (VInt 42) VNone VNone VNone VNone
                  VNone (fun _ => VNone)))) st) eq_refl).
Defined.

(** [login] answered with a page that is not JSON, on a client that
    already holds a token. *)
Lemma login_stores_token_only_on_success_witness :
  let st := mkState (mkClient (VStr "tok-old")) [Answered (mkResponse None)] [] in
  fst (await (login scripted (VStr "alice") (VStr "secret")) st)
    = Raise JSONDecodeError
  /\ _token (self (snd (await (login scripted (VStr "alice") (VStr "secret")) st)))
     = VStr "tok-old".
Proof.
  intros st. split; [reflexivity | ].
  exact (proj2 (proj2 (login_stores_token_only_on_success scripted
                         (VStr "alice") (VStr "secret") st))
               JSONDecodeError eq_refl).
Defined.

(** A registration whose three steps are answered; the second answer is
    not even an object. *)
Lemma register_completes_witness :
  let result1 := VDict [("err", VList []);
                        ("data", VDict [("phone_key", VStr "pk-1")])] in
  let result2 := VList [] in
  let result3 := VDict [("err", VList []);
                        ("data", VDict [("access_token", VStr "tok-new")])] in
  let st := mkState GrustnogramClient__init__
              [json_response result1; json_response result2;
               json_response result3] [] in
  let code_handler := fun _ : unit => VStr "1234" in
  let run := await (register scripted (VStr "mara") (VStr "mara@example.com")
                      (VStr "hunter2") (VStr "+70000000000") code_handler) st in
  fst run = Return true
  /\ _token (self (snd run)) = VStr "tok-new"
  /\ sent (snd run)
     = (sent st
        ++ [users_request (VStr "mara") (VStr "mara@example.com") (VStr "hunter2");
            callme_request (VStr "pk-1") (VStr "+70000000000");
            phoneactivate_request (VStr "1234") (VStr "+70000000000")])%list.
Proof.
  intros result1 result2 result3 st code_handler run.
  exact (register_completes scripted (VStr "mara") (VStr "mara@example.com")
           (VStr "hunter2") (VStr "+70000000000") code_handler
           result1 (VDict [("phone_key", VStr "pk-1")]) (VStr "pk-1")
           result2 result3 (VDict [("access_token", VStr "tok-new")])
           (VStr "tok-new") st
           eq_refl eq_refl eq_refl eq_refl eq_refl eq_refl eq_refl).
Defined.

(** A registration with an e-mail the server knows already: the answer
    has code 100 and no [data]. *)
Lemma register_aborts_at_first_step_witness :
  let result1 := VDict [("err", VList [VInt 100])] in
  let st := mkState GrustnogramClient__init__
              [json_response result1; json_response (VDict [])] [] in
  let call1 := users_request (VStr "mara") (VStr "mara@example.com")
                 (VStr "hunter2") in
  fst (scripted call1 (net st)) = json_response result1
  /\ getitem result1 "data" = Raise (KeyError "data")
  /\ await (register scripted (VStr "mara") (VStr "mara@example.com")
              (VStr "hunter2") (VStr "+70000000000") (fun _ => VStr "1234")) st
     = (Raise (KeyError "data"), after scripted call1 st).
Proof.
  intros result1 st call1.
  split; [reflexivity | ]. split; [reflexivity | ].
  exact (register_aborts_at_first_step scripted (VStr "mara")
           (VStr "mara@example.com") (VStr "hunter2") (VStr "+70000000000")
           (fun _ => VStr "1234") result1 (KeyError "data") st eq_refl
           (or_introl eq_refl)).
Defined.

(** [comment_post] answered with the comment it created. *)
Lemma comment_post_returns_comment_witness :
  let d := VDict [("id", VInt 7); ("nickname", VStr "mara");
                  ("comment", VStr "so sad"); ("created_at", VInt 1650000300)] in
  let result := VDict [("err", VList []); ("data", d)] in
  let st := mkState (mkClient (VStr "tok-abc")) [json_response result] [] in
  let call := comment_post_request (_token (self st)) (VInt 42) (VStr "so sad") in
  fst (scripted call (net st)) = json_response result
  /\ await (comment_post scripted (VInt 42) (VStr "so sad")) st
     = (Return (Comment__init__ (VInt 7) (VStr "mara") (VStr "so sad")
                  (VInt 1650000300)),
        after scripted call st).
Proof.
  intros d result st call. split; [reflexivity | ].
  exact (comment_post_returns_comment scripted (VInt 42) (VStr "so sad") result d
           (VInt 7) (VStr "mara") (VStr "so sad") (VInt 1650000300) st
           eq_refl eq_refl eq_refl eq_refl eq_refl eq_refl).
Defined.

(** [comment_post] answered with a comment that has no [nickname]. *)
Lemma comment_post_missing_entry_witness :
  let fields := [("id", VInt 7); ("comment", VStr "so sad");
                 ("created_at", VInt 1650000300)] in
  let entries := [("err", VList []); ("data", VDict fields)] in
  let st := mkState (mkClient (VStr "tok-abc"))
              [json_response (VDict entries)] [] in
  fst (scripted (comment_post_request (_token (self st)) (VInt 42) (VStr "so sad"))
         (net st)) = json_response (VDict entries)
  /\ lookup "id" fields <> None
  /\ lookup "nickname" fields = None
  /\ fst (await (comment_post scripted (VInt 42) (VStr "so sad")) st)
     = Raise (KeyError "nickname").
Proof.
  intros fields entries st.
  assert (Hid : lookup "id" fields <> None) by discriminate.
  split; [reflexivity | ]. split; [exact Hid | ]. split; [reflexivity | ].
  exact (proj1 (proj2 (proj2 (comment_post_missing_entry scripted (VInt 42)
                                (VStr "so sad") entries fields st eq_refl)
                             eq_refl)) Hid eq_refl).
Defined.

(** [get_comments] answered with two items of which the second has no
    [created_at]: the call does not return. *)
Lemma get_comments_returns_iff_all_objects_witness :
  let good := VDict [("id", VInt 3); ("nickname", VStr "mara");
                     ("comment", VStr "so sad"); ("created_at", VInt 1650000300)] in
  let bad := VDict [("id", VInt 1); ("nickname", VStr "olek");
                    ("comment", VStr "sadder")] in
  let result := VDict [("err", VList []); ("data", VList [good; bad])] in
  let st := mkState (mkClient (VStr "tok-abc")) [json_response result] [] in
  fst (scripted (get_comments_request (_token (self st)) (VInt 42)
                   default_limit default_offset) (net st)) = json_response result
  /\ getitem result "data" = Return (VList [good; bad])
  /\ ~ (exists cs : list Comment,
          fst (await (get_comments scripted (VInt 42) default_limit
                        default_offset) st) = Return cs).
Proof.
  intros good bad result st.
  split; [reflexivity | ]. split; [reflexivity | ].
  intros Hreturns.
  apply (proj1 (get_comments_returns_iff_all_objects scripted (VInt 42)
                  default_limit default_offset result [good; bad] st
                  eq_refl eq_refl)) in Hreturns.
  discriminate Hreturns.
Defined.

(** [get_comments] answered with [data] an empty object. *)
Lemma get_comments_data_not_a_list_witness :
  let result := VDict [("err", VList []); ("data", VDict [])] in
  let st := mkState (mkClient (VStr "tok-abc")) [json_response result] [] in
  fst (scripted (get_comments_request (_token (self st)) (VInt 42)
                   default_limit default_offset) (net st)) = json_response result
  /\ getitem result "data" = Return (VDict [])
  /\ fst (await (get_comments scripted (VInt 42) default_limit default_offset) st)
     = Return [].
Proof.
  intros result st. split; [reflexivity | ]. split; [reflexivity | ].
  exact (proj1 (get_comments_data_not_a_list scripted (VInt 42) default_limit
                  default_offset result (VDict []) st eq_refl eq_refl)
               eq_refl (or_introl (ex_intro _ [] eq_refl))).
Defined.

(** The comment [get_comments] returns for a one-item list, and its
    [delete]. *)
Lemma get_comments_returns_unbound_comments_witness :
  let obj := VDict [("id", VInt 3); ("nickname", VStr "mara");
                    ("comment", VStr "so sad"); ("created_at", VInt 1650000300)] in
  let result := VDict [("err", VList []); ("data", VList [obj])] in
  let st := mkState (mkClient (VStr "tok-abc")) [json_response result] [] in
  let c := Comment__init__ (VInt 3) (VStr "mara") (VStr "so sad")
             (VInt 1650000300) in
  fst (await (get_comments scripted (VInt 42) default_limit default_offset) st)
    = Return [c]
  /\ In c [c]
  /\ await (Comment_delete scripted c) st = (Raise (AttributeError "_client"), st).
Proof.
  intros obj result st c.
  assert (Hin : In c [c]) by (left; reflexivity).
  split; [reflexivity | ]. split; [exact Hin | ].
  exact (proj1 (get_comments_returns_unbound_comments scripted (VInt 42)
                  default_limit default_offset [c] c st st eq_refl Hin)).
Defined.

(** A comment a caller has bound the client on, and its [delete] against
    a network that answers. *)
Lemma bound_comment_methods_delegate_witness :
  let c := mkComment (VInt 7) (VStr "mara") (VStr "so sad") (VInt 1650000300)
             (Some the_client) in
  let st := mkState (mkClient (VStr "tok-abc"))
              [json_response (VDict [("err", VList [])])] [] in
  Comment__client c = Some the_client
  /\ await (Comment_delete scripted c) st
     = (Return VNone,
        after scripted (delete_comment_request (VStr "tok-abc") (VInt 7)) st).
Proof.
  intros c st. split; [reflexivity | ].
  exact (proj1 (bound_comment_methods_delegate scripted c st eq_refl)).
Defined.

(** A post a caller has bound the client on, and its [like]. *)
Lemma bound_post_methods_delegate_witness :
  let author := User__init__ (VInt 5) (VStr "olek") (VStr "") (VInt 1650000000) in
  let p := mkPost (VInt 42) (VStr "https://grustnogram.ru/p/42") (VStr "m-42")
             (VStr "rain again") author (VInt 0) (VInt 0) (VInt 1650000100)
             (Some the_client) in
  let st := mkState (mkClient (VStr "tok-abc"))
              [json_response (VDict [("err", VList [])])] [] in
  Post__client p = Some the_client
  /\ await (Post_like scripted p) st
     = (Return VNone,
        after scripted (like_post_request (VStr "tok-abc") (VInt 42)) st).
Proof.
  intros author p st. split; [reflexivity | ].
  exact (proj1 (proj2 (bound_post_methods_delegate scripted p VNone st eq_refl))).
Defined.

(** A user a caller has bound the client on: [delete] asks for comment 5
    to be deleted. *)
Lemma user_delete_calls_delete_comment_witness :
  let u := mkUser (VInt 5) (VStr "olek") (VStr "") (VInt 1650000000)
             (Some the_client) in
  let st := mkState (mkClient (VStr "tok-abc"))
              [json_response (VDict [("err", VList [])])] [] in
  User__client u = Some the_client
  /\ sent (snd (await (User_delete scripted u) st))
     = [mkRequest requests_delete "https://api.grustnogram.ru/posts/comment/5"
          (auth_headers (VStr "tok-abc")) None].
Proof.
  intros u st. split; [reflexivity | ].
  exact (proj2 (proj1 (user_delete_calls_delete_comment scripted u st) eq_refl)).
Defined.

(** Two logins in a row, as two users. *)
Lemma second_login_replaces_token_witness :
  let answer (tok : string) :=
    VDict [("err", VList []); ("data", VDict [("access_token", VStr tok)])] in
  let st := mkState GrustnogramClient__init__
              [json_response (answer "tok-mara"); json_response (answer "tok-olek")]
              [] in
  let st1 := snd (await (login scripted (VStr "mara") (VStr "hunter2")) st) in
  let st2 := snd (await (login scripted (VStr "olek") (VStr "qwerty")) st1) in
  _token (self st1) = VStr "tok-mara"
  /\ _token (self st2) = VStr "tok-olek"
  /\ sent st2
     = (sent st ++ [login_request (VStr "mara") (VStr "hunter2");
                    login_request (VStr "olek") (VStr "qwerty")])%list.
Proof.
  intros answer st st1 st2.
  exact (second_login_replaces_token scripted (VStr "mara") (VStr "hunter2")
           (VStr "olek") (VStr "qwerty")
           (answer "tok-mara") (VDict [("access_token", VStr "tok-mara")])
           (VStr "tok-mara")
           (answer "tok-olek") (VDict [("access_token", VStr "tok-olek")])
           (VStr "tok-olek") st
           eq_refl eq_refl eq_refl eq_refl eq_refl eq_refl).
Defined.

(** Posts 41 and 42. *)
Lemma identifiers_are_written_verbatim_witness :
  41%Z <> 42%Z
  /\ url (like_post_request VNone (VInt 41)) <> url (like_post_request VNone (VInt 42)).
Proof.
  assert (Hneq : 41%Z <> 42%Z) by discriminate.
  split; [exact Hneq | ].
  exact (proj1 (identifiers_are_written_verbatim VNone 41%Z 42%Z) Hneq).
Defined.
